(** * tumdlr.containers: post containers and save-path resolution

    A shallow embedding of [src/tumdlr/containers.py]: the classes
    [TumblrPost], [TumblrPhotoSet], [TumblrFile] and [TumblrPhoto], over a
    small model of the Python values an API response is made of. *)

From Stdlib Require Import ZArith List String Ascii Bool Lia DecimalString.
Import ListNotations.
Open Scope string_scope.

(** ** Python values

    An API response is decoded JSON: [None], booleans, integers, strings,
    lists, and dicts with string keys.  A dict is kept as an association list
    in insertion order, the way a Python dict iterates. *)

#[local] Set Warnings "-register-all".

Inductive pyval : Type :=
| PNone
| PBool (b : bool)
| PInt (z : Z)
| PStr (s : string)
| PList (l : list pyval)
| PDict (d : list (string * pyval)).

Definition dict : Type := list (string * pyval).

(** Exceptions by their Python class.  [NotModelled] marks an operation whose
    behaviour lies outside this model (it belongs to a library that is not
    part of the repository); it is no Python exception. *)
Inductive exn : Type :=
| KeyError (key : string)
| TypeError (msg : string)
| ValueError (msg : string)
| AttributeError (msg : string)
| AssertionError
| NotModelled (what : string).

Definition exn_name (e : exn) : string :=
  match e with
  | KeyError _ => "KeyError"
  | TypeError _ => "TypeError"
  | ValueError _ => "ValueError"
  | AttributeError _ => "AttributeError"
  | AssertionError => "AssertionError"
  | NotModelled _ => "NotModelled"
  end.

Inductive result (A : Type) : Type :=
| Ok (a : A)
| Raise (e : exn).
Arguments Ok {A} a.
Arguments Raise {A} e.

Definition bind {A B} (r : result A) (k : A -> result B) : result B :=
  match r with
  | Ok a => k a
  | Raise e => Raise e
  end.

Notation "x <- c ;; k" := (bind c (fun x => k))
  (at level 61, c at next level, right associativity).

(** State and exceptions together: a mutable object [S] is threaded through,
    and survives an exception with whatever was written to it before. *)
Definition SE (S A : Type) : Type := S -> S * result A.

Definition se_ret {S A} (a : A) : SE S A := fun s => (s, Ok a).
Definition se_lift {S A} (r : result A) : SE S A := fun s => (s, r).
Definition se_bind {S A B} (m : SE S A) (k : A -> SE S B) : SE S B :=
  fun s => match m s with
           | (s', Ok a) => k a s'
           | (s', Raise e) => (s', Raise e)
           end.

Notation "x <~ c ;; k" := (se_bind c (fun x => k))
  (at level 61, c at next level, right associativity).

(** ** Dicts *)

Fixpoint dict_find (k : string) (d : dict) : option pyval :=
  match d with
  | [] => None
  | (k', v) :: rest => if String.eqb k k' then Some v else dict_find k rest
  end.

(** [k in d] *)
Definition dict_contains (k : string) (d : dict) : bool :=
  match dict_find k d with Some _ => true | None => false end.

(** [d.get(k, default)] *)
Definition dict_get (d : dict) (k : string) (default : pyval) : pyval :=
  match dict_find k d with Some v => v | None => default end.

(** [d[k]] *)
Definition dict_getitem (d : dict) (k : string) : result pyval :=
  match dict_find k d with Some v => Ok v | None => Raise (KeyError k) end.

(** [d[k] = v]: an existing key keeps its place, a new one goes last. *)
Fixpoint dict_setitem (d : dict) (k : string) (v : pyval) : dict :=
  match d with
  | [] => [(k, v)]
  | (k', v') :: rest =>
      if String.eqb k k' then (k', v) :: rest
      else (k', v') :: dict_setitem rest k v
  end.

(** ** Builtins on dynamically typed values *)

(** Truth value of an object. *)
Definition py_bool (v : pyval) : bool :=
  match v with
  | PNone => false
  | PBool b => b
  | PInt z => negb (z =? 0)%Z
  | PStr s => negb (String.eqb s "")
  | PList l => match l with [] => false | _ => true end
  | PDict d => match d with [] => false | _ => true end
  end.

(** [o.get(k, default)]: only a dict has the method. *)
Definition py_get (o : pyval) (k : string) (default : pyval) : result pyval :=
  match o with
  | PDict d => Ok (dict_get d k default)
  | _ => Raise (AttributeError "object has no attribute 'get'")
  end.

(** [o[k]] with a string key. *)
Definition py_getitem (o : pyval) (k : string) : result pyval :=
  match o with
  | PDict d => dict_getitem d k
  | PStr _ | PList _ => Raise (TypeError "indices must be integers")
  | _ => Raise (TypeError "object is not subscriptable")
  end.

(** [o[k] = v] with a string key; the result is the object after the write. *)
Definition py_setitem (o : pyval) (k : string) (v : pyval) : result pyval :=
  match o with
  | PDict d => Ok (PDict (dict_setitem d k v))
  | PList _ => Raise (TypeError "list indices must be integers")
  | _ => Raise (TypeError "object does not support item assignment")
  end.

(** [len(o)] *)
Definition py_len (o : pyval) : result nat :=
  match o with
  | PStr s => Ok (String.length s)
  | PList l => Ok (List.length l)
  | PDict d => Ok (List.length d)
  | _ => Raise (TypeError "object has no len()")
  end.

Fixpoint chars (s : string) : list pyval :=
  match s with
  | EmptyString => []
  | String c rest => PStr (String c EmptyString) :: chars rest
  end.

(** The items [for x in o] goes through: the elements of a list, the keys of
    a dict, the characters of a string. *)
Definition py_iter (o : pyval) : result (list pyval) :=
  match o with
  | PList l => Ok l
  | PDict d => Ok (map (fun kv => PStr (fst kv)) d)
  | PStr s => Ok (chars s)
  | _ => Raise (TypeError "object is not iterable")
  end.

(** Calling an object.  No value of the response universe is callable. *)
Definition py_call (f : pyval) (arg : pyval) : result pyval :=
  Raise (TypeError "object is not callable").

Definition num_of (v : pyval) : option Z :=
  match v with
  | PInt z => Some z
  | PBool b => Some (if b then 1 else 0)%Z
  | _ => None
  end.

(** [a > b].  Numbers compare by value and strings by code point; two lists
    compare element-wise, which nothing here needs; any other pair is
    unorderable. *)
Definition py_gt (a b : pyval) : result bool :=
  match num_of a, num_of b with
  | Some x, Some y => Ok (x >? y)%Z
  | _, _ =>
      match a, b with
      | PStr s, PStr t => Ok (String.ltb t s)
      | PList _, PList _ => Raise (NotModelled "ordering of lists")
      | _, _ => Raise (TypeError "'>' not supported between instances")
      end
  end.

(** The loop of the builtin [max] once a first item is held: an item
    replaces the held one only when its key is strictly greater, so of equal
    keys the earliest stays.  Items carry their position in the iterable. *)
Fixpoint max_loop (key : pyval -> result pyval) (items : list pyval)
    (pos : nat) (best : nat * pyval) (bestkey : pyval) : result (nat * pyval) :=
  match items with
  | [] => Ok best
  | item :: rest =>
      k <- key item ;;
      gt <- py_gt k bestkey ;;
      if (gt : bool) then max_loop key rest (S pos) (pos, item) k
      else max_loop key rest (S pos) best bestkey
  end.

Definition max_by (key : pyval -> result pyval) (items : list pyval)
  : result (nat * pyval) :=
  match items with
  | [] => Raise (ValueError "max() arg is an empty sequence")
  | item :: rest =>
      k <- key item ;;
      max_loop key rest 1 (0, item) k
  end.

(** [max(iterable, key=key)]: the key object is called on every item, the
    first one included. *)
Definition py_max (iterable key : pyval) : result (nat * pyval) :=
  items <- py_iter iterable ;;
  max_by (py_call key) items.

Definition str_of_Z (z : Z) : string := NilZero.string_of_int (Z.to_int z).
Definition str_of_nat (n : nat) : string := NilZero.string_of_uint (Nat.to_uint n).

(** [str(o)], which is also what [format] puts in a plain replacement
    field.  The [repr] of the elements of a container is not modelled. *)
Definition py_str (v : pyval) : result string :=
  match v with
  | PNone => Ok "None"
  | PBool true => Ok "True"
  | PBool false => Ok "False"
  | PInt z => Ok (str_of_Z z)
  | PStr s => Ok s
  | PList _ | PDict _ => Raise (NotModelled "str of a container")
  end.

(** Hashable values: everything but lists and dicts. *)
Definition hashable (v : pyval) : bool :=
  match v with
  | PList _ | PDict _ => false
  | _ => true
  end.

(** Equality of hashable values, as a set sees it ([True == 1]). *)
Definition atom_eqb (a b : pyval) : bool :=
  match num_of a, num_of b with
  | Some x, Some y => (x =? y)%Z
  | _, _ =>
      match a, b with
      | PNone, PNone => true
      | PStr s, PStr t => String.eqb s t
      | _, _ => false
      end
  end.

Fixpoint set_add_all (items : list pyval) (acc : list pyval) : result (list pyval) :=
  match items with
  | [] => Ok acc
  | x :: rest =>
      if hashable x then
        set_add_all rest (if existsb (atom_eqb x) acc then acc else acc ++ [x])
      else Raise (TypeError "unhashable type")
  end.

(** [set(o)]: a set is kept as the list of its distinct elements. *)
Definition py_set (o : pyval) : result (list pyval) :=
  items <- py_iter o ;;
  set_add_all items [].

(** ** Collaborators outside the repository *)

(** [yurl.URL]: the url object built from a string as it was written, or
    from [None].  What the library does with the string (it normalises the
    scheme and the host, for one) shows in what [as_string] returns, which
    is a parameter wherever it is read. *)
Inductive URL : Type :=
| mkURL (written : string)
| URL_of_None.

Definition URL_new (v : pyval) : result URL :=
  match v with
  | PStr s => Ok (mkURL s)
  | PNone => Ok URL_of_None
  | _ => Raise (NotModelled "URL of a value that is no string")
  end.

(** Modelled from the spec: the parent blog ([tumdlr.api.TumblrBlog] is not
    under src/), of which the display name is all that is read. *)
Record TumblrBlog : Type := mkBlog { name : string }.

(** ** File containers, construction

    A file does not hold its container here (the two refer to each other in
    the source); operations that read [self.container] take it as an
    argument. *)

Record TumblrFile : Type := mkFile {
  _data : dict;
  file_type : string;
  url : URL
}.

Record TumblrPhoto : Type := mkPhoto {
  file : TumblrFile;
  width : pyval;
  height : pyval;
  page_no : pyval
}.

(** [TumblrFile.__init__] *)
Definition TumblrFile___init__ (data : pyval) : result TumblrFile :=
  u <- py_getitem data "url" ;;
  u' <- URL_new u ;;
  match data with
  | PDict d => Ok (mkFile d "misc" u')
  | _ => Raise (TypeError "object is not subscriptable")
  end.

(** [TumblrPhoto.__init__] *)
Definition TumblrPhoto___init__ (photo : pyval) : result TumblrPhoto :=
  self <- TumblrFile___init__ photo ;;
  let self := mkFile (_data self) "photos" (url self) in
  w <- py_get photo "width" PNone ;;
  h <- py_get photo "height" PNone ;;
  pn <- py_get photo "page_no" (PBool false) ;;
  Ok (mkPhoto self w h pn).

(** ** Post containers *)

Record TumblrPost : Type := mkPost {
  blog : TumblrBlog;
  id : pyval;
  type : pyval;
  post_url : option URL;
  tags : list pyval;
  post_date : pyval;
  note_count : pyval;
  files : list TumblrPhoto
}.

Record TumblrPhotoSet : Type := mkPhotoSet {
  post : TumblrPost;
  title : pyval
}.

(** The attributes as [TumblrPost.__init__] binds them before it parses.
    [self._post] is the caller's mapping itself, not a copy: the functions
    below take it as an argument, and the one that writes to it returns it. *)
Definition TumblrPost_defaults (b : TumblrBlog) : TumblrPost :=
  mkPost b PNone PNone None [] PNone PNone [].

(** [TumblrPost._parse_post] *)
Definition TumblrPost__parse_post (_post : dict) (self : TumblrPost)
  : result TumblrPost :=
  i <- dict_getitem _post "id" ;;
  t <- dict_getitem _post "type" ;;
  u <- (if dict_contains "post_url" _post
        then (v <- dict_getitem _post "post_url" ;;
              u <- URL_new v ;;
              Ok (Some u))
        else Ok None) ;;
  tg <- py_set (dict_get _post "tags" (PList [])) ;;
  let nc := dict_get _post "note_count" PNone in
  d <- dict_getitem _post "date" ;;
  Ok (mkPost (blog self) i t u tg d nc (files self)).

(** [TumblrPost.__init__], on an object of the base class; nothing in it
    writes to the mapping. *)
Definition TumblrPost___init__ (b : TumblrBlog) : SE dict TumblrPost :=
  fun _post => (_post, TumblrPost__parse_post _post (TumblrPost_defaults b)).

(** [is_text], [is_photo], [is_video] *)
Definition is_text (self : TumblrPost) : bool := atom_eqb (type self) (PStr "text").
Definition is_photo (self : TumblrPost) : bool :=
  atom_eqb (type self) (PStr "photo") || atom_eqb (type self) (PStr "link").
Definition is_video (self : TumblrPost) : bool := atom_eqb (type self) (PStr "video").

(** *** Photo sets *)

(** Where a selected size lives inside its photo record: the write of line
    114 goes to that very object. *)
Inductive size_ref : Type :=
| OriginalSize
| AltSize (j : nat).

(** Line 113: [photo.get('original_size') or max(photo['alt_sizes'], key='width')] *)
Definition select_best_size (photo : pyval) : result (size_ref * pyval) :=
  original <- py_get photo "original_size" PNone ;;
  if py_bool original then Ok (OriginalSize, original)
  else
    alt_sizes <- py_getitem photo "alt_sizes" ;;
    best <- py_max alt_sizes (PStr "width") ;;
    Ok (AltSize (fst best), snd best).

Fixpoint list_set (l : list pyval) (j : nat) (v : pyval) : list pyval :=
  match l, j with
  | [], _ => []
  | _ :: rest, O => v :: rest
  | x :: rest, S j' => x :: list_set rest j' v
  end.

(** The photo record once the size at [r] has become [size]. *)
Definition store_size (photo : pyval) (r : size_ref) (size : pyval) : pyval :=
  match photo with
  | PDict d =>
      match r with
      | OriginalSize => PDict (dict_setitem d "original_size" size)
      | AltSize j =>
          match dict_find "alt_sizes" d with
          | Some (PList l) => PDict (dict_setitem d "alt_sizes" (PList (list_set l j size)))
          | _ => photo
          end
      end
  | _ => photo
  end.

(** Lines 113-115, the body of the loop, on one photo record: the record
    after the step, and the photo built. *)
Definition parse_photo (is_photoset : bool) (page : nat) : SE pyval TumblrPhoto :=
  fun photo =>
    match select_best_size photo with
    | Raise e => (photo, Raise e)
    | Ok (r, best_size) =>
        let pn := if is_photoset then PInt (Z.of_nat page) else PBool false in
        match py_setitem best_size "page_no" pn with
        | Raise e => (photo, Raise e)
        | Ok best_size' => (store_size photo r best_size', TumblrPhoto___init__ best_size')
        end
    end.

(** Lines 112-115: [for page_no, photo in enumerate(photos, 1)], appending to
    [self.files].  An exception leaves the records already visited as
    written and the later ones untouched. *)
Fixpoint parse_photos (is_photoset : bool) (page : nat) (acc : list TumblrPhoto)
  : SE (list pyval) (list TumblrPhoto) :=
  fun photos =>
    match photos with
    | [] => ([], Ok acc)
    | photo :: rest =>
        match parse_photo is_photoset page photo with
        | (photo', Ok f) =>
            let (rest', r) := parse_photos is_photoset (S page) (acc ++ [f]) rest in
            (photo' :: rest', r)
        | (photo', Raise e) => (photo' :: rest, Raise e)
        end
    end.

(** Line 107: [self._post.get('caption', self._post.get('title'))] *)
Definition resolve_title (_post : dict) : pyval :=
  dict_get _post "caption" (dict_get _post "title" PNone).

Definition with_files (p : TumblrPost) (fs : list TumblrPhoto) : TumblrPost :=
  mkPost (blog p) (id p) (type p) (post_url p) (tags p) (post_date p) (note_count p) fs.

(** [TumblrPhotoSet._parse_post].  The state is the response mapping: the
    photo records of a list under ['photos'] are written in place; iterating
    anything else yields strings, which cannot be written to. *)
Definition TumblrPhotoSet__parse_post (self : TumblrPhotoSet)
  : SE dict TumblrPhotoSet :=
  fun _post =>
    match TumblrPost__parse_post _post (post self) with
    | Raise e => (_post, Raise e)
    | Ok base =>
        let t := resolve_title _post in
        let photos := dict_get _post "photos" (PList []) in
        match py_len photos, py_iter photos with
        | Raise e, _ | _, Raise e => (_post, Raise e)
        | Ok n, Ok items =>
            let is_photoset := (1 <? n)%nat in
            let (items', r) := parse_photos is_photoset 1 (files base) items in
            let _post' :=
              match dict_find "photos" _post with
              | Some (PList _) => dict_setitem _post "photos" (PList items')
              | _ => _post
              end in
            (_post', fs <- r ;; Ok (mkPhotoSet (with_files base fs) t))
        end
    end.

(** [TumblrPhotoSet.__init__]: the base constructor runs the overriding
    [_parse_post]; then line 100 binds [self.title = None]. *)
Definition TumblrPhotoSet___init__ (b : TumblrBlog) : SE dict TumblrPhotoSet :=
  self <~ TumblrPhotoSet__parse_post (mkPhotoSet (TumblrPost_defaults b) PNone) ;;
  se_ret (mkPhotoSet (post self) PNone).

(** ** Save paths *)

(** Modelled from the spec: the request context ([tumdlr.main.Context] is not
    under src/).  It exposes a save-root path and three independent boolean
    toggles; the source reads them as [config['Tumdlr']['SavePath']] and
    [config['Categorization'][...]]. *)
Record Context : Type := mkContext {
  SavePath : string;
  User : bool;
  PostType : bool;
  Photosets : bool
}.

(** [pathlib.Path] on a POSIX host: a root and the components after it.
    A string is cut at its slashes, and empty components and '.' are
    dropped; the root is '/' for a string that starts with a slash, '//'
    for one that starts with exactly two. *)
Record Path : Type := mkPath { root : string; parts : list string }.

Fixpoint split_slash (s : string) : list string :=
  match s with
  | EmptyString => [EmptyString]
  | String c rest =>
      if Ascii.eqb c "/" then EmptyString :: split_slash rest
      else match split_slash rest with
           | x :: xs => String c x :: xs
           | [] => [String c EmptyString]
           end
  end.

Fixpoint leading_slashes (s : string) : nat :=
  match s with
  | String c rest => if Ascii.eqb c "/" then S (leading_slashes rest) else 0
  | EmptyString => 0
  end.

Definition root_of (s : string) : string :=
  match leading_slashes s with
  | 0 => ""
  | 2 => "//"
  | _ => "/"
  end.

Definition components (s : string) : list string :=
  filter (fun x => negb (String.eqb x "" || String.eqb x "."))
    (split_slash s).

(** [Path(s)] *)
Definition Path_new (s : string) : Path := mkPath (root_of s) (components s).

(** [p.joinpath(seg)]: a segment that has a root replaces the path; any
    other adds its components, an empty one none. *)
Definition joinpath (p : Path) (seg : string) : Path :=
  if String.eqb (root_of seg) ""
  then mkPath (root p) (parts p ++ components seg)
  else Path_new seg.

(** [str(p)]: the root and the components joined by slashes, '.' for the
    path without either. *)
Definition Path_str (p : Path) : string :=
  match root p ++ String.concat "/" (parts p) with
  | EmptyString => "."
  | s => s
  end.

(** A segment that is one component: not empty, not '.', no slash in it. *)
Definition plain (seg : string) : Prop :=
  root_of seg = "" /\ components seg = [seg].

(** A path with a component or more that prints as its root and
    components. *)
Definition named (p : Path) : Prop :=
  parts p <> [] /\ root p ++ String.concat "/" (parts p) <> "".

(** [os.path.splitext], POSIX flavour: the extension starts at the last dot
    of the last component, unless only dots come before it there. *)
Fixpoint rfind_from (c : ascii) (s : string) (i last : Z) : Z :=
  match s with
  | EmptyString => last
  | String a rest => rfind_from c rest (i + 1) (if Ascii.eqb a c then i else last)
  end.

Definition rfind (c : ascii) (s : string) : Z := rfind_from c s 0 (-1).

Fixpoint all_dots (s : string) : bool :=
  match s with
  | EmptyString => true
  | String a rest => Ascii.eqb a "." && all_dots rest
  end.

Definition splitext (p : string) : string * string :=
  let sepIndex := rfind "/" p in
  let dotIndex := rfind "." p in
  if (dotIndex >? sepIndex)%Z then
    let first := Z.to_nat (sepIndex + 1) in
    let dot := Z.to_nat dotIndex in
    if all_dots (substring first (dot - first) p) then (p, "")
    else (substring 0 dot p, substring dot (String.length p - dot) p)
  else (p, "").

(** What [self.container] may be. *)
Inductive container : Type :=
| PostContainer (p : TumblrPost)
| PhotoSetContainer (ps : TumblrPhotoSet).

Definition container_post (c : container) : TumblrPost :=
  match c with
  | PostContainer p => p
  | PhotoSetContainer ps => post ps
  end.

(** An actual positional argument of a call to [filepath]. *)
Inductive pyarg : Type :=
| ArgContext (c : Context)
| ArgValue (v : pyval).

(** [request_data['progress_data'][k] = v], on the caller's dict. *)
Definition set_progress (k : string) (v : pyval) : SE pyval unit :=
  fun request_data =>
    match (pd <- py_getitem request_data "progress_data" ;; py_setitem pd k v) with
    | Raise e => (request_data, Raise e)
    | Ok pd' =>
        (match request_data with
         | PDict d => PDict (dict_setitem d "progress_data" pd')
         | _ => request_data
         end, Ok tt)
    end.

(** What a call raises that leaves a required parameter without a value. *)
Definition missing_argument : exn :=
  TypeError "filepath() missing required positional argument: 'request_data'".

Section SavePaths.

(** [tumdlr.downloader.sanitize_filename], a total function on strings;
    what it does to another object is not modelled. *)
Variable sanitize_filename : string -> string.

(** [URL.as_string] of [yurl]: the text of a url object. *)
Variable as_string : URL -> string.

Definition py_sanitize (v : pyval) : result string :=
  match v with
  | PStr s => Ok (sanitize_filename s)
  | _ => Raise (NotModelled "sanitize_filename of a non-string")
  end.

(** Lines 163-178, the body of [TumblrFile.filepath]. *)
Definition basedir_of (c : container) (context : Context) : Path :=
  let basedir := Path_new (SavePath context) in
  let basedir :=
    if User context
    then joinpath basedir (sanitize_filename (name (blog (container_post c))))
    else basedir in
  let basedir :=
    if PostType context then joinpath basedir "photos" else basedir in
  basedir.

(** [TumblrFile.filepath(self, context, request_data)]: a call has to
    supply both parameters after [self]. *)
Definition TumblrFile_filepath (c : container) (args : list pyarg)
  : result Path :=
  match args with
  | [context; request_data] =>
      match context with
      | ArgContext context => Ok (basedir_of c context)
      | ArgValue _ => Raise (AttributeError "object has no attribute 'config'")
      end
  | [] | [_] => Raise missing_argument
  | _ => Raise (TypeError "filepath() takes 3 positional arguments but more were given")
  end.

(** Lines 213-215: the segment of the photo set. *)
Definition photoset_segment (ps : TumblrPhotoSet) (self : TumblrPhoto)
    (context : Context) (filepath : Path) : result Path :=
  if py_bool (page_no self) && Photosets context
  then (i <- py_str (id (post ps)) ;;
        seg <- py_sanitize (PStr i) ;;
        Ok (joinpath filepath seg))
  else Ok filepath.

(** Lines 218-224: the file name, and the page count for the display. *)
Definition filename_segment (ps : TumblrPhotoSet) (self : TumblrPhoto)
    (filepath : Path) : SE pyval Path :=
  if py_bool (page_no self)
  then
    filepath <~ se_lift (pn <- py_str (page_no self) ;;
                         pt <- py_str (title ps) ;;
                         seg <- py_sanitize (PStr ("p" ++ pn ++ "_" ++ pt)) ;;
                         Ok (joinpath filepath seg)) ;;
    cur <~ se_lift (py_str (page_no self)) ;;
    _ <~ set_progress "Photoset Page"
           (PStr (cur ++ " / " ++ str_of_nat (List.length (files (post ps))))) ;;
    se_ret filepath
  else se_lift (seg <- py_sanitize (title ps) ;;
                Ok (joinpath filepath seg)).

(** Lines 210-227 of [TumblrPhoto.filepath], from a base directory on. *)
Definition filepath_rest (ps : TumblrPhotoSet) (self : TumblrPhoto)
    (context : Context) (filepath : Path) : SE pyval string :=
  _ <~ set_progress "Caption" (title ps) ;;
  filepath <~ se_lift (photoset_segment ps self context filepath) ;;
  filepath <~ filename_segment ps self filepath ;;
  se_ret (Path_str filepath ++ snd (splitext (as_string (url (file self))))).

(** [TumblrPhoto.filepath(self, context, request_data)].  Line 207 asserts
    the container's class; line 208 is [super().filepath(context)], a call
    with one argument. *)
Definition TumblrPhoto_filepath (c : container) (self : TumblrPhoto)
    (context : Context) : SE pyval string :=
  match c with
  | PostContainer _ => se_lift (Raise AssertionError)
  | PhotoSetContainer ps =>
      filepath <~ se_lift (TumblrFile_filepath c [ArgContext context]) ;;
      filepath_rest ps self context filepath
  end.

End SavePaths.

(** ** Well-formed responses, as decidable predicates *)

(** The three mandatory keys are there. *)
Definition mandatory_okb (_post : dict) : bool :=
  dict_contains "id" _post && dict_contains "type" _post
  && dict_contains "date" _post.

(** The optional fields read by the base class have usable values: the
    ['post_url'], when present, is a string, and the ['tags'], when present,
    can be iterated and hold hashable values only. *)
Definition optional_okb (_post : dict) : bool :=
  match dict_find "post_url" _post with
  | None | Some (PStr _) => true
  | Some _ => false
  end
  && match py_iter (dict_get _post "tags" (PList [])) with
     | Ok items => forallb hashable items
     | Raise _ => false
     end.

(** A size entry with a string ['url']. *)
Definition size_okb (size : pyval) : bool :=
  match size with
  | PDict d => match dict_find "url" d with Some (PStr _) => true | _ => false end
  | _ => false
  end.

(** A photo record that carries such an entry as its ['original_size']. *)
Definition photo_okb (photo : pyval) : bool :=
  match photo with
  | PDict d =>
      match dict_find "original_size" d with
      | Some size => size_okb size
      | None => false
      end
  | _ => false
  end.

Definition photos_okb (_post : dict) : bool :=
  match dict_find "photos" _post with
  | None => true
  | Some (PList l) => forallb photo_okb l
  | Some _ => false
  end.

Definition post_okb (_post : dict) : bool :=
  mandatory_okb _post && optional_okb _post && photos_okb _post.

(** A photo record before and after ['page_no'] was bound in its
    ['original_size'] entry. *)
Definition page_bound (photo photo' : pyval) : Prop :=
  exists d size pn,
    photo = PDict d /\ dict_find "original_size" d = Some (PDict size) /\
    photo' = PDict (dict_setitem d "original_size"
                      (PDict (dict_setitem size "page_no" pn))).

(** A photo built from the ['original_size'] entry of a photo record. *)
Definition from_record (photo : pyval) (f : TumblrPhoto) : Prop :=
  exists d size u,
    photo = PDict d /\ dict_find "original_size" d = Some (PDict size) /\
    dict_find "url" size = Some u /\ URL_new u = Ok (url (file f)) /\
    width f = dict_get size "width" PNone /\
    height f = dict_get size "height" PNone.

(** The value line 114 binds for the record in position [page]. *)
Definition page_value (is_photoset : bool) (page : nat) : pyval :=
  if is_photoset then PInt (Z.of_nat page) else PBool false.

(** A photo record before and after ['page_no'] was bound to [pn] in its
    ['original_size'] entry. *)
Definition page_bound_to (pn : pyval) (photo photo' : pyval) : Prop :=
  exists d size,
    photo = PDict d /\ dict_find "original_size" d = Some (PDict size) /\
    photo' = PDict (dict_setitem d "original_size"
                      (PDict (dict_setitem size "page_no" pn))).

(** Photo records, counted from [page], each with its own page value
    bound. *)
Fixpoint pages_bound (is_photoset : bool) (page : nat)
    (l l' : list pyval) : Prop :=
  match l, l' with
  | [], [] => True
  | photo :: rest, photo' :: rest' =>
      page_bound_to (page_value is_photoset page) photo photo' /\
      pages_bound is_photoset (S page) rest rest'
  | _, _ => False
  end.

(** The same, where a record may also be untouched. *)
Fixpoint pages_written (is_photoset : bool) (page : nat)
    (l l' : list pyval) : Prop :=
  match l, l' with
  | [], [] => True
  | photo :: rest, photo' :: rest' =>
      (photo' = photo \/
       page_bound_to (page_value is_photoset page) photo photo') /\
      pages_written is_photoset (S page) rest rest'
  | _, _ => False
  end.

(** What a step of the loop may have done to a photo record: nothing, or
    that. *)
Definition page_written (photo photo' : pyval) : Prop :=
  photo' = photo \/ page_bound photo photo'.

(** A computation whose value, when it returns one, is the same from any
    state. *)
Definition state_blind {S A} (m : SE S A) : Prop :=
  forall s1 s2 a1 a2, snd (m s1) = Ok a1 -> snd (m s2) = Ok a2 -> a1 = a2.

(** A computation whose exceptions are of the classes named. *)
Definition raises_among {S A} (names : list string) (m : SE S A) : Prop :=
  forall s e, snd (m s) = Raise e -> In (exn_name e) names.

(** A side channel of the expected shape: a dict whose ['progress_data'] is
    a dict. *)
Definition has_progress (request_data : pyval) : Prop :=
  exists d pd,
    request_data = PDict d /\ dict_find "progress_data" d = Some (PDict pd).

(** A result that is an exception of the class named. *)
Definition surfaces {A} (cls : string) (r : result A) : Prop :=
  exists e, r = Raise e /\ exn_name e = cls.

(** The key function line 113 was after: the ['width'] of an entry. *)
Definition width_of (size : pyval) : result pyval := py_getitem size "width".

(** ** Sample responses *)

Definition example_blog : TumblrBlog := mkBlog "example".

Definition size_entry (u : string) (w : Z) : pyval :=
  PDict [("url", PStr u); ("width", PInt w); ("height", PInt w)].

(** Post 42, caption "Trip", three photos that have an original size. *)
Definition trip_post : dict :=
  [("id", PInt 42); ("type", PStr "photo"); ("date", PStr "2016-03-01");
   ("caption", PStr "Trip");
   ("photos",
    PList [PDict [("original_size", size_entry "http://media/a.jpg" 1280)];
           PDict [("original_size", size_entry "http://media/b.jpg" 1280)];
           PDict [("original_size", size_entry "http://media/c.jpg" 1280)]])].

(** A single photo that has an original size. *)
Definition single_post : dict :=
  [("id", PInt 7); ("type", PStr "photo"); ("date", PStr "2016-03-02");
   ("title", PStr "Sunset");
   ("photos",
    PList [PDict [("original_size", size_entry "http://media/s.jpg" 1280)]])].

(** A single photo that lists alternate sizes only, of widths 100, 400, 250. *)
Definition alt_sizes_100_400_250 : list pyval :=
  [size_entry "http://media/s100.jpg" 100;
   size_entry "http://media/s400.jpg" 400;
   size_entry "http://media/s250.jpg" 250].

Definition alt_only_post : dict :=
  [("id", PInt 8); ("type", PStr "photo"); ("date", PStr "2016-03-03");
   ("photos", PList [PDict [("alt_sizes", PList alt_sizes_100_400_250)]])].

(** Two photos, neither caption nor title. *)
Definition untitled_post : dict :=
  [("id", PInt 9); ("type", PStr "photo"); ("date", PStr "2016-03-04");
   ("photos",
    PList [PDict [("original_size", size_entry "http://media/u1.jpg" 640)];
           PDict [("original_size", size_entry "http://media/u2.jpg" 640)]])].

(** The three mandatory keys, and tags that are a number. *)
Definition scalar_tags_post : dict :=
  [("id", PInt 1); ("type", PStr "text"); ("date", PStr "2016-03-05");
   ("tags", PInt 5)].

(** An empty caption next to a title. *)
Definition empty_caption_post : dict :=
  [("id", PInt 2); ("type", PStr "photo"); ("date", PStr "2016-03-06");
   ("caption", PStr ""); ("title", PStr "Holiday")].

Definition all_on : Context := mkContext "/out" true true true.
Definition all_off : Context := mkContext "/out" false false false.
Definition user_only : Context := mkContext "/out" true false false.
Definition photoset_only : Context := mkContext "/out" false false true.

Definition empty_progress : pyval := PDict [("progress_data", PDict [])].

(** The photo set and the photos the constructor builds from a response. *)
Definition built (_post : dict) : option TumblrPhotoSet :=
  match snd (TumblrPhotoSet___init__ example_blog _post) with
  | Ok ps => Some ps
  | Raise _ => None
  end.

Definition photo_at (_post : dict) (i : nat) : option TumblrPhoto :=
  match built _post with
  | Some ps => nth_error (files (post ps)) i
  | None => None
  end.

(** The photo set as [_parse_post] leaves it, before line 100. *)
Definition parsed (_post : dict) : option TumblrPhotoSet :=
  match snd (TumblrPhotoSet__parse_post
               (mkPhotoSet (TumblrPost_defaults example_blog) PNone) _post) with
  | Ok ps => Some ps
  | Raise _ => None
  end.

(** A sanitizer to run the samples with: it keeps every name. *)
Definition keep (s : string) : string := s.

(** A url printer to run the samples with: the string as it was written. *)
Definition as_written (u : URL) : string :=
  match u with
  | mkURL s => s
  | URL_of_None => ""
  end.

(** A side channel that already holds entries of an earlier download. *)
Definition used_progress : pyval :=
  PDict [("chunk_size", PInt 1024);
         ("progress_data",
          PDict [("Caption", PStr "Earlier"); ("Photoset Page", PStr "9 / 9")])].

(** ** Printing and downloading *)

(** [s.split("\n")[0]]: what comes before the first line feed. *)
Fixpoint first_line (s : string) : string :=
  match s with
  | EmptyString => EmptyString
  | String c rest =>
      if Ascii.eqb c "010" then EmptyString else String c (first_line rest)
  end.

(** The characters [str.strip()] removes, among the code points below 256:
    tab to carriage return, the four separators 28-31, the space, NEL and
    the no-break space. *)
Definition is_space (c : ascii) : bool :=
  let n := nat_of_ascii c in
  ((9 <=? n)%nat && (n <=? 13)%nat) || ((28 <=? n)%nat && (n <=? 32)%nat)
  || (n =? 133)%nat || (n =? 160)%nat.

Fixpoint lstrip (s : string) : string :=
  match s with
  | EmptyString => EmptyString
  | String c rest => if is_space c then lstrip rest else s
  end.

Fixpoint rstrip (s : string) : string :=
  match s with
  | EmptyString => EmptyString
  | String c rest =>
      match rstrip rest with
      | EmptyString => if is_space c then EmptyString else String c EmptyString
      | rest' => String c rest'
      end
  end.

(** [s.strip()] *)
Definition strip (s : string) : string := rstrip (lstrip s).

(** [title.split("\n")[0].strip()]: only a string has the method. *)
Definition title_line (title : pyval) : result string :=
  match title with
  | PStr s => Ok (strip (first_line s))
  | _ => Raise (AttributeError "object has no attribute 'split'")
  end.

(** [TumblrPhotoSet.__repr__], lines 117-119. *)
Definition TumblrPhotoSet___repr__ (self : TumblrPhotoSet) : result string :=
  t <- title_line (title self) ;;
  i <- py_str (id (post self)) ;;
  Ok ("<TumblrPhotoSet title='" ++ t ++ "' id='" ++ i ++ "' photos='"
      ++ str_of_nat (List.length (files (post self))) ++ "'>").

Section Printing.

(** [URL.as_string] of [yurl]: the text of a url object. *)
Variable as_string : URL -> string.

(** The truth value of a [yurl.URL] object, which that library decides. *)
Variable URL_bool : URL -> bool.

(** [TumblrPhotoSet.__str__], lines 121-122. *)
Definition TumblrPhotoSet___str__ (self : TumblrPhotoSet) : result string :=
  match post_url (post self) with
  | Some u => Ok (as_string u)
  | None => Raise (AttributeError "'NoneType' object has no attribute 'as_string'")
  end.

(** [TumblrPhoto.__str__], lines 232-233. *)
Definition TumblrPhoto___str__ (self : TumblrPhoto) : string :=
  as_string (url (file self)).

(** [TumblrPost.__str__], lines 83-84. *)
Definition TumblrPost___str__ (self : TumblrPost) : string :=
  match post_url self with
  | Some u => if URL_bool u then as_string u else ""
  | None => ""
  end.

End Printing.

Section Download.

Variable sanitize_filename : string -> string.
Variable as_string : URL -> string.

(** [tumdlr.downloader.download]: the transfer of a url to a path, with the
    caller's options. *)
Variable transfer : string -> string -> dict -> result unit.

(** [TumblrFile.download(self, context, **kwargs)], lines 142-151, on a
    photo, the one class that implements [filepath].  The keyword arguments
    are a dict, handed to [filepath] for its side channel and then to the
    transfer. *)
Definition TumblrFile_download (c : container) (self : TumblrPhoto)
    (context : Context) : SE dict unit :=
  fun kwargs =>
    let u := as_string (url (file self)) in
    match TumblrPhoto_filepath sanitize_filename as_string c self context
            (PDict kwargs) with
    | (PDict kwargs', Ok path) => (kwargs', transfer u path kwargs')
    | (PDict kwargs', Raise e) => (kwargs', Raise e)
    | (_, Ok path) => (kwargs, transfer u path kwargs)
    | (_, Raise e) => (kwargs, Raise e)
    end.

End Download.

(** ** More sample responses *)

(** The first two records have an original size; the third has neither an
    original size nor alternate sizes; a fourth follows. *)
Definition broken_third_post : dict :=
  [("id", PInt 11); ("type", PStr "photo"); ("date", PStr "2016-03-07");
   ("photos",
    PList [PDict [("original_size", size_entry "http://media/k1.jpg" 640)];
           PDict [("original_size", size_entry "http://media/k2.jpg" 640)];
           PDict [("caption", PStr "no sizes")];
           PDict [("original_size", size_entry "http://media/k4.jpg" 640)]])].

(** A text post with a url, repeated tags and a note count. *)
Definition text_post : dict :=
  [("id", PInt 12); ("type", PStr "text"); ("date", PStr "2016-03-08");
   ("post_url", PStr "http://example.tumblr.com/post/12");
   ("tags", PList [PStr "a"; PStr "b"; PStr "a"; PInt 1; PBool true]);
   ("note_count", PInt 3)].

(** The trip photo set as [_parse_post] leaves it, and its second photo. *)
Definition trip_set : TumblrPhotoSet :=
  match parsed trip_post with
  | Some ps => ps
  | None => mkPhotoSet (TumblrPost_defaults example_blog) PNone
  end.

Definition trip_page2 : TumblrPhoto :=
  nth 1 (files (post trip_set))
    (mkPhoto (mkFile [] "photos" (mkURL "")) PNone PNone (PBool false)).

(** Two photos that list alternate sizes only. *)
Definition alt_only_pair_post : dict :=
  [("id", PInt 13); ("type", PStr "photo"); ("date", PStr "2016-03-09");
   ("photos", PList [PDict [("alt_sizes", PList alt_sizes_100_400_250)];
                     PDict [("alt_sizes", PList alt_sizes_100_400_250)]])].

(** No two elements of a list equal as a set sees them. *)
Definition distinct (l : list pyval) : Prop :=
  ForallOrdPairs (fun a b => atom_eqb a b = false) l.

(** ** Dicts: reading after writing *)

Lemma dict_find_setitem_same (d : dict) (k : string) (v : pyval) :
  dict_find k (dict_setitem d k v) = Some v.
Proof.
  induction d as [|[k' v'] rest IH]; simpl.
  - now rewrite String.eqb_refl.
  - destruct (String.eqb k k') eqn:E; simpl; rewrite E; auto.
Qed.

Lemma dict_find_setitem_other (d : dict) (k k' : string) (v : pyval) :
  k <> k' -> dict_find k' (dict_setitem d k v) = dict_find k' d.
Proof.
  intros Hne. induction d as [|[k0 v0] rest IH]; simpl.
  - destruct (String.eqb k' k) eqn:E; auto.
    apply String.eqb_eq in E. congruence.
  - destruct (String.eqb k k0) eqn:E; simpl.
    + apply String.eqb_eq in E. subst k0.
      destruct (String.eqb k' k) eqn:E'; auto.
      apply String.eqb_eq in E'. congruence.
    + now rewrite IH.
Qed.

Lemma dict_keys_setitem (d : dict) (k : string) (v : pyval) :
  dict_find k d <> None -> map fst (dict_setitem d k v) = map fst d.
Proof.
  induction d as [|[k0 v0] rest IH]; simpl; intros H.
  - congruence.
  - destruct (String.eqb k k0) eqn:E; simpl; auto.
    now rewrite IH.
Qed.

Lemma chars_length (s : string) : List.length (chars s) = String.length s.
Proof. induction s; simpl; congruence. Qed.

(** [len] and iteration agree on the number of items. *)
Lemma py_len_iter (o : pyval) (n : nat) (items : list pyval) :
  py_len o = Ok n -> py_iter o = Ok items -> List.length items = n.
Proof.
  destruct o; simpl; try discriminate; intros H1 H2;
    inversion H1; inversion H2; subst; auto using chars_length, length_map.
Qed.

(** ** The builtin [max] *)

(** With a string for its key, [max] returns on no iterable. *)
Lemma py_max_str_key_raises (iterable : pyval) (k : string) :
  exists e, py_max iterable (PStr k) = Raise e.
Proof.
  unfold py_max. destruct (py_iter iterable) as [items|e]; simpl; eauto.
  destruct items; simpl; eauto.
Qed.

Lemma py_max_never_returns (iterable key : pyval) (r : nat * pyval) :
  py_max iterable key <> Ok r.
Proof.
  unfold py_max. destruct (py_iter iterable) as [items|e]; simpl; try discriminate.
  destruct items; simpl; discriminate.
Qed.

(** With the width for its key, [max] picks the 400 entry of the sample, and
    the earlier of two entries of equal width. *)
Lemma max_by_width_sample :
  max_by width_of alt_sizes_100_400_250
  = Ok (1%nat, size_entry "http://media/s400.jpg" 400).
Proof. reflexivity. Qed.

Lemma max_by_width_tie :
  max_by width_of [size_entry "first" 400; size_entry "low" 100; size_entry "second" 400]
  = Ok (0%nat, size_entry "first" 400).
Proof. reflexivity. Qed.

(** ** Best-size selection, line 113 *)

(** A selected size is always the record's own ['original_size'] entry. *)
Lemma select_best_size_ok (photo : pyval) (r : size_ref) (best : pyval) :
  select_best_size photo = Ok (r, best) ->
  r = OriginalSize /\ py_bool best = true /\
  exists d, photo = PDict d /\ dict_find "original_size" d = Some best.
Proof.
  unfold select_best_size, py_get. destruct photo; simpl; try discriminate.
  unfold dict_get. destruct (dict_find "original_size" d) as [v|] eqn:F; simpl.
  - destruct (py_bool v) eqn:T.
    + intros H. inversion H; subst. eauto.
    + destruct (dict_getitem d "alt_sizes") as [a|e]; simpl; try discriminate.
      destruct (py_max a (PStr "width")) as [m|e] eqn:M; simpl; try discriminate.
      now apply py_max_never_returns in M.
  - destruct (dict_getitem d "alt_sizes") as [a|e]; simpl; try discriminate.
    destruct (py_max a (PStr "width")) as [m|e] eqn:M; simpl; try discriminate.
    now apply py_max_never_returns in M.
Qed.

(** An original size that is there (and not empty) is the one selected,
    whatever the alternate sizes are. *)
Lemma select_best_size_original (d : dict) (original : pyval) :
  dict_find "original_size" d = Some original -> py_bool original = true ->
  select_best_size (PDict d) = Ok (OriginalSize, original).
Proof.
  intros F T. unfold select_best_size. simpl. unfold dict_get. rewrite F. simpl.
  now rewrite T.
Qed.

(** Without one, the selection raises. *)
Lemma select_best_size_no_original (d : dict) :
  dict_find "original_size" d = None ->
  exists e, select_best_size (PDict d) = Raise e.
Proof.
  intros F. unfold select_best_size. simpl. unfold dict_get. rewrite F. simpl.
  destruct (dict_getitem d "alt_sizes") as [a|e]; simpl; eauto.
  destruct (py_max_str_key_raises a "width") as [e ->]. simpl. eauto.
Qed.

(** ** The loop over the photo records, lines 112-115 *)

Lemma photo_init_page_no (d : dict) (f : TumblrPhoto) :
  TumblrPhoto___init__ (PDict d) = Ok f ->
  page_no f = dict_get d "page_no" (PBool false).
Proof.
  unfold TumblrPhoto___init__, TumblrFile___init__. simpl.
  destruct (dict_getitem d "url") as [u|e]; simpl; try discriminate.
  destruct (URL_new u) as [u'|e]; simpl; try discriminate.
  intros H. now inversion H.
Qed.

Lemma photo_init_ok (d : dict) (u : string) :
  dict_find "url" d = Some (PStr u) ->
  exists f, TumblrPhoto___init__ (PDict d) = Ok f.
Proof.
  intros F. unfold TumblrPhoto___init__, TumblrFile___init__. simpl.
  unfold dict_getitem. rewrite F. simpl. eauto.
Qed.

(** A photo that is built carries the page number of its step, or [False]
    outside a set. *)
Lemma parse_photo_page (is_photoset : bool) (page : nat)
    (photo photo' : pyval) (f : TumblrPhoto) :
  parse_photo is_photoset page photo = (photo', Ok f) ->
  page_no f = if is_photoset then PInt (Z.of_nat page) else PBool false.
Proof.
  unfold parse_photo.
  destruct (select_best_size photo) as [[r best]|e]; try discriminate.
  destruct best; simpl; try discriminate.
  intros H. inversion H as [[Hp Hf]].
  apply photo_init_page_no in Hf. rewrite Hf.
  unfold dict_get. now rewrite dict_find_setitem_same.
Qed.

(** A photo that is built is built from the record's original size. *)
Lemma parse_photo_source (is_photoset : bool) (page : nat)
    (photo photo' : pyval) (f : TumblrPhoto) :
  parse_photo is_photoset page photo = (photo', Ok f) ->
  from_record photo f.
Proof.
  unfold parse_photo.
  destruct (select_best_size photo) as [[ref best]|e] eqn:S; [|discriminate].
  apply select_best_size_ok in S. destruct S as (-> & _ & d & -> & F).
  destruct best as [| | | | |size]; simpl; try discriminate.
  intros H. inversion H as [[Hp Hf]]. clear H Hp.
  unfold TumblrPhoto___init__, TumblrFile___init__ in Hf. simpl in Hf.
  unfold dict_getitem in Hf.
  rewrite dict_find_setitem_other in Hf by discriminate.
  destruct (dict_find "url" size) as [u|] eqn:U; simpl in Hf; [|discriminate].
  destruct (URL_new u) as [u'|e] eqn:N; simpl in Hf; [|discriminate].
  inversion Hf; subst f. simpl. exists d, size, u.
  unfold dict_get. rewrite !dict_find_setitem_other by discriminate.
  repeat split; auto.
Qed.

(** A step writes nothing but the page number, and only inside the record's
    original size. *)
Lemma parse_photo_frame (is_photoset : bool) (page : nat)
    (photo photo' : pyval) (r : result TumblrPhoto) :
  parse_photo is_photoset page photo = (photo', r) ->
  page_written photo photo'.
Proof.
  unfold parse_photo.
  destruct (select_best_size photo) as [[ref best]|e] eqn:S.
  - apply select_best_size_ok in S. destruct S as (-> & _ & d & -> & F).
    destruct best; simpl; intros H; inversion H; subst;
      try (now left).
    right. now exists d, d0, (if is_photoset then PInt (Z.of_nat page) else PBool false).
  - intros H. inversion H. now left.
Qed.

(** A step that builds a photo has written the page number. *)
Lemma parse_photo_bound (is_photoset : bool) (page : nat)
    (photo photo' : pyval) (f : TumblrPhoto) :
  parse_photo is_photoset page photo = (photo', Ok f) ->
  page_bound photo photo'.
Proof.
  unfold parse_photo.
  destruct (select_best_size photo) as [[ref best]|e] eqn:S; [|discriminate].
  apply select_best_size_ok in S. destruct S as (-> & _ & d & -> & F).
  destruct best; simpl; try discriminate.
  intros H. inversion H; subst.
  now exists d, d0, (if is_photoset then PInt (Z.of_nat page) else PBool false).
Qed.

Lemma parse_photo_ok (is_photoset : bool) (page : nat) (photo : pyval) :
  photo_okb photo = true ->
  exists photo' f, parse_photo is_photoset page photo = (photo', Ok f).
Proof.
  unfold photo_okb. destruct photo; try discriminate.
  destruct (dict_find "original_size" d) as [size|] eqn:F; try discriminate.
  unfold size_okb. destruct size as [| | | | |sd]; try discriminate.
  destruct (dict_find "url" sd) as [u|] eqn:U; try discriminate.
  destruct u as [| | |u| |]; try discriminate. intros _.
  unfold parse_photo. rewrite (select_best_size_original d (PDict sd) F).
  - simpl.
    destruct (photo_init_ok
                (dict_setitem sd "page_no"
                   (if is_photoset then PInt (Z.of_nat page) else PBool false)) u)
      as [f Hf].
    + rewrite dict_find_setitem_other; [assumption | discriminate].
    + rewrite Hf. eauto.
  - destruct sd; [discriminate | reflexivity].
Qed.

Lemma parse_photos_pages (is_photoset : bool) (photos : list pyval) :
  forall (page : nat) (acc : list TumblrPhoto) (photos' : list pyval)
         (fs : list TumblrPhoto),
    parse_photos is_photoset page acc photos = (photos', Ok fs) ->
    exists new,
      fs = (acc ++ new)%list /\
      map page_no new
      = map (fun i => if is_photoset then PInt (Z.of_nat i) else PBool false)
            (seq page (List.length photos)).
Proof.
  induction photos as [|photo rest IH]; intros page acc photos' fs; simpl.
  - intros H. inversion H; subst. exists []. now rewrite app_nil_r.
  - destruct (parse_photo is_photoset page photo) as [photo1 [f|e]] eqn:P;
      try discriminate.
    destruct (parse_photos is_photoset (S page) (acc ++ [f]) rest)
      as [rest' r] eqn:R.
    intros H. inversion H; subst.
    apply IH in R. destruct R as (new & -> & Hnew).
    exists (f :: new). split.
    + now rewrite <- app_assoc.
    + simpl. rewrite Hnew. f_equal. eapply parse_photo_page; eauto.
Qed.

Lemma parse_photos_source (is_photoset : bool) (photos : list pyval) :
  forall (page : nat) (acc : list TumblrPhoto) (photos' : list pyval)
         (fs : list TumblrPhoto),
    parse_photos is_photoset page acc photos = (photos', Ok fs) ->
    exists new, fs = (acc ++ new)%list /\ Forall2 from_record photos new.
Proof.
  induction photos as [|photo rest IH]; intros page acc photos' fs; simpl.
  - intros H. inversion H; subst. exists []. now rewrite app_nil_r.
  - destruct (parse_photo is_photoset page photo) as [photo1 [f|e]] eqn:P;
      try discriminate.
    destruct (parse_photos is_photoset (S page) (acc ++ [f]) rest)
      as [rest' r] eqn:R.
    intros H. inversion H; subst.
    apply IH in R. destruct R as (new & -> & Hnew).
    exists (f :: new). split.
    + now rewrite <- app_assoc.
    + constructor; [eapply parse_photo_source; eauto | assumption].
Qed.

Lemma parse_photos_frame (is_photoset : bool) (photos : list pyval) :
  forall (page : nat) (acc : list TumblrPhoto) (photos' : list pyval)
         (r : result (list TumblrPhoto)),
    parse_photos is_photoset page acc photos = (photos', r) ->
    Forall2 page_written photos photos'.
Proof.
  induction photos as [|photo rest IH]; intros page acc photos' r; simpl.
  - intros H. inversion H. constructor.
  - destruct (parse_photo is_photoset page photo) as [photo1 [f|e]] eqn:P.
    + destruct (parse_photos is_photoset (S page) (acc ++ [f]) rest)
        as [rest' r'] eqn:R.
      intros H. inversion H; subst. constructor.
      * eapply parse_photo_frame; eauto.
      * eapply IH; eauto.
    + intros H. inversion H; subst. constructor.
      * eapply parse_photo_frame; eauto.
      * clear. induction rest; constructor; auto. now left.
Qed.

Lemma parse_photos_bound (is_photoset : bool) (photos : list pyval) :
  forall (page : nat) (acc : list TumblrPhoto) (photos' : list pyval)
         (fs : list TumblrPhoto),
    parse_photos is_photoset page acc photos = (photos', Ok fs) ->
    Forall2 page_bound photos photos'.
Proof.
  induction photos as [|photo rest IH]; intros page acc photos' fs; simpl.
  - intros H. inversion H. constructor.
  - destruct (parse_photo is_photoset page photo) as [photo1 [f|e]] eqn:P;
      [|discriminate].
    destruct (parse_photos is_photoset (S page) (acc ++ [f]) rest)
      as [rest' r'] eqn:R.
    intros H. inversion H; subst. constructor.
    + eapply parse_photo_bound; eauto.
    + eapply IH; eauto.
Qed.

Lemma parse_photos_ok (is_photoset : bool) (photos : list pyval) :
  forall (page : nat) (acc : list TumblrPhoto),
    forallb photo_okb photos = true ->
    exists photos' fs, parse_photos is_photoset page acc photos = (photos', Ok fs).
Proof.
  induction photos as [|photo rest IH]; intros page acc; simpl.
  - eauto.
  - intros H. apply andb_true_iff in H. destruct H as [Hp Hr].
    destruct (parse_photo_ok is_photoset page photo Hp) as (photo' & f & ->).
    destruct (IH (S page) (acc ++ [f])%list Hr) as (rest' & fs & ->). eauto.
Qed.

(** Strings, the items of anything iterable that is not a list, stop the
    loop at once and are left as they are. *)
Lemma parse_photos_unwritten (is_photoset : bool) (photos : list pyval) :
  forall (page : nat) (acc : list TumblrPhoto) (photos' : list pyval)
         (r : result (list TumblrPhoto)),
    parse_photos is_photoset page acc photos = (photos', r) ->
    Forall (fun p => exists s, p = PStr s) photos -> photos' = photos.
Proof.
  destruct photos as [|photo rest]; intros page acc photos' r; simpl.
  - intros H. now inversion H.
  - intros H F. inversion F as [|? ? [s ->] _]; subst. simpl in H.
    now inversion H.
Qed.

(** ** The base parse, lines 71-77 *)

Lemma set_add_all_ok (items : list pyval) :
  forall acc, forallb hashable items = true ->
              exists s, set_add_all items acc = Ok s.
Proof.
  induction items as [|x rest IH]; intros acc; simpl.
  - eauto.
  - intros H. apply andb_true_iff in H. destruct H as [Hx Hr].
    rewrite Hx. now apply IH.
Qed.

Lemma py_set_ok (_post : dict) :
  optional_okb _post = true ->
  exists s, py_set (dict_get _post "tags" (PList [])) = Ok s.
Proof.
  unfold optional_okb, py_set. intros H. apply andb_true_iff in H.
  destruct H as [_ H].
  destruct (py_iter (dict_get _post "tags" (PList []))) as [items|e];
    try discriminate.
  simpl. now apply set_add_all_ok.
Qed.

Lemma post_url_ok (_post : dict) :
  optional_okb _post = true ->
  exists u,
    (if dict_contains "post_url" _post
     then (v <- dict_getitem _post "post_url" ;;
           u <- URL_new v ;;
           Ok (Some u))
     else Ok None) = Ok u.
Proof.
  unfold optional_okb, dict_contains, dict_getitem. intros H.
  apply andb_true_iff in H. destruct H as [H _].
  destruct (dict_find "post_url" _post) as [v|]; simpl; eauto.
  destruct v; try discriminate. simpl. eauto.
Qed.

(** What a successful base parse has read. *)
Lemma post_parse_fields (_post : dict) (self p : TumblrPost) :
  TumblrPost__parse_post _post self = Ok p ->
  dict_find "id" _post = Some (id p) /\
  dict_find "type" _post = Some (type p) /\
  dict_find "date" _post = Some (post_date p) /\
  files p = files self /\ blog p = blog self.
Proof.
  unfold TumblrPost__parse_post, dict_getitem at 1 2 4.
  destruct (dict_find "id" _post) as [i|]; simpl; try discriminate.
  destruct (dict_find "type" _post) as [t|]; simpl; try discriminate.
  match goal with |- bind ?c _ = _ -> _ => destruct c as [u|e] end;
    simpl; try discriminate.
  destruct (py_set _) as [tg|e]; simpl; try discriminate.
  destruct (dict_find "date" _post) as [d|]; simpl; try discriminate.
  intros H. inversion H; subst. simpl. auto.
Qed.

Lemma post_parse_ok (_post : dict) (self : TumblrPost) :
  mandatory_okb _post = true -> optional_okb _post = true ->
  exists p, TumblrPost__parse_post _post self = Ok p.
Proof.
  unfold mandatory_okb, dict_contains. intros M O.
  destruct (post_url_ok _post O) as [u Hu].
  destruct (py_set_ok _post O) as [tg Htg].
  unfold TumblrPost__parse_post. rewrite Hu, Htg. unfold dict_getitem.
  destruct (dict_find "id" _post); try discriminate.
  destruct (dict_find "type" _post); try discriminate.
  destruct (dict_find "date" _post); try discriminate.
  simpl. eauto.
Qed.

Lemma post_parse_missing (_post : dict) (self : TumblrPost) :
  mandatory_okb _post = false ->
  exists e, TumblrPost__parse_post _post self = Raise e.
Proof.
  intros M. destruct (TumblrPost__parse_post _post self) as [p|e] eqn:P; eauto.
  apply post_parse_fields in P. destruct P as (I & T & D & _).
  unfold mandatory_okb, dict_contains in M. rewrite I, T, D in M. discriminate.
Qed.

(** With usable optional fields, the only exception is the [KeyError] of a
    missing mandatory key. *)
Lemma post_parse_raise_cause (_post : dict) (self : TumblrPost) (e : exn) :
  optional_okb _post = true ->
  TumblrPost__parse_post _post self = Raise e ->
  exists k, e = KeyError k /\ In k ["id"; "type"; "date"] /\
            dict_find k _post = None.
Proof.
  intros O. destruct (post_url_ok _post O) as [u Hu].
  destruct (py_set_ok _post O) as [tg Htg].
  unfold TumblrPost__parse_post. rewrite Hu, Htg. unfold dict_getitem.
  destruct (dict_find "id" _post) eqn:I; simpl.
  2:{ intros H. inversion H. exists "id". simpl. auto. }
  destruct (dict_find "type" _post) eqn:T; simpl.
  2:{ intros H. inversion H. exists "type". simpl. auto. }
  destruct (dict_find "date" _post) eqn:D; simpl; try discriminate.
  intros H. inversion H. exists "date". simpl. auto 6.
Qed.

(** ** The photo-set parse, lines 102-115 *)

(** A successful parse: the title is the value of line 107, and the files
    are those the loop built from the items of ['photos']. *)
Lemma photoset_parse_inv (self self' : TumblrPhotoSet) (_post _post' : dict) :
  TumblrPhotoSet__parse_post self _post = (_post', Ok self') ->
  title self' = resolve_title _post /\
  exists base n items items',
    TumblrPost__parse_post _post (post self) = Ok base /\
    py_len (dict_get _post "photos" (PList [])) = Ok n /\
    py_iter (dict_get _post "photos" (PList [])) = Ok items /\
    parse_photos (1 <? n)%nat 1 (files base) items
    = (items', Ok (files (post self'))).
Proof.
  unfold TumblrPhotoSet__parse_post.
  destruct (TumblrPost__parse_post _post (post self)) as [base|e];
    try discriminate.
  destruct (py_len _) as [n|e] eqn:L; try discriminate.
  destruct (py_iter _) as [items|e] eqn:I; try discriminate.
  destruct (parse_photos _ _ _ _) as [items' [fs|e]] eqn:P; simpl;
    try discriminate.
  intros H. inversion H; subst. simpl. split; auto.
  exists base, n, items, items'. auto.
Qed.

Lemma photoset_parse_ok (self : TumblrPhotoSet) (_post : dict) :
  post_okb _post = true ->
  exists _post' self', TumblrPhotoSet__parse_post self _post = (_post', Ok self').
Proof.
  unfold post_okb. intros H. apply andb_true_iff in H. destruct H as [H Hp].
  apply andb_true_iff in H. destruct H as [M O].
  destruct (post_parse_ok _post (post self) M O) as [base Hb].
  unfold TumblrPhotoSet__parse_post. rewrite Hb.
  unfold photos_okb in Hp. unfold dict_get at 1 2.
  destruct (dict_find "photos" _post) as [v|] eqn:F.
  - destruct v; try discriminate. simpl.
    destruct (parse_photos_ok (1 <? List.length l)%nat l 1 (files base) Hp)
      as (items' & fs & ->).
    simpl. eauto.
  - simpl. eauto.
Qed.

(** The mapping after a successful parse of a list of photo records. *)
Lemma photoset_parse_bound (self self' : TumblrPhotoSet) (_post _post' : dict)
    (l : list pyval) :
  TumblrPhotoSet__parse_post self _post = (_post', Ok self') ->
  dict_find "photos" _post = Some (PList l) ->
  exists l',
    _post' = dict_setitem _post "photos" (PList l') /\
    Forall2 page_bound l l'.
Proof.
  unfold TumblrPhotoSet__parse_post. intros H F. revert H.
  destruct (TumblrPost__parse_post _post (post self)) as [base|e];
    [|discriminate].
  unfold dict_get at 1 2. rewrite F. simpl.
  destruct (parse_photos _ _ _ _) as [items' [fs|e]] eqn:P; simpl;
    [|discriminate].
  intros H. inversion H; subst. exists items'. split; [reflexivity|].
  eapply parse_photos_bound; eauto.
Qed.

(** The mapping after the parse, whatever its outcome. *)
Lemma photoset_parse_frame (self : TumblrPhotoSet) (_post _post' : dict)
    (r : result TumblrPhotoSet) :
  TumblrPhotoSet__parse_post self _post = (_post', r) ->
  _post' = _post \/
  exists l l',
    dict_find "photos" _post = Some (PList l) /\
    _post' = dict_setitem _post "photos" (PList l') /\
    Forall2 page_written l l'.
Proof.
  unfold TumblrPhotoSet__parse_post.
  destruct (TumblrPost__parse_post _post (post self)) as [base|e].
  2:{ intros H. inversion H. now left. }
  unfold dict_get at 1 2.
  destruct (dict_find "photos" _post) as [v|] eqn:F.
  - destruct v; simpl;
      try (intros H; inversion H; now left);
      try (destruct (parse_photos _ _ _ _) as [items' r'];
           intros H; inversion H; now left).
    destruct (parse_photos _ _ _ _) as [items' r'] eqn:P.
    intros H. inversion H; subst. right. exists l, items'.
    repeat split; auto. eapply parse_photos_frame; eauto.
  - simpl. intros H. inversion H. now left.
Qed.

Lemma photoset_init_inv (b : TumblrBlog) (_post _post' : dict)
    (ps : TumblrPhotoSet) :
  TumblrPhotoSet___init__ b _post = (_post', Ok ps) ->
  title ps = PNone /\
  exists self',
    TumblrPhotoSet__parse_post (mkPhotoSet (TumblrPost_defaults b) PNone) _post
    = (_post', Ok self') /\ post ps = post self'.
Proof.
  unfold TumblrPhotoSet___init__, se_bind, se_ret.
  destruct (TumblrPhotoSet__parse_post _ _post) as [p' [self'|e]];
    try discriminate.
  intros H. inversion H; subst. simpl. eauto.
Qed.

(** *** The value written *)

Lemma parse_photo_written_to (is_photoset : bool) (page : nat)
    (photo photo' : pyval) (r : result TumblrPhoto) :
  parse_photo is_photoset page photo = (photo', r) ->
  photo' = photo \/ page_bound_to (page_value is_photoset page) photo photo'.
Proof.
  unfold parse_photo.
  destruct (select_best_size photo) as [[ref best]|e] eqn:S.
  - apply select_best_size_ok in S. destruct S as (-> & _ & d & -> & F).
    destruct best as [| | | | |size]; simpl; intros H; inversion H; subst;
      try (now left).
    right. now exists d, size.
  - intros H. inversion H. now left.
Qed.

Lemma parse_photo_bound_to (is_photoset : bool) (page : nat)
    (photo photo' : pyval) (f : TumblrPhoto) :
  parse_photo is_photoset page photo = (photo', Ok f) ->
  page_bound_to (page_value is_photoset page) photo photo'.
Proof.
  unfold parse_photo.
  destruct (select_best_size photo) as [[ref best]|e] eqn:S; [|discriminate].
  apply select_best_size_ok in S. destruct S as (-> & _ & d & -> & F).
  destruct best as [| | | | |size]; simpl; try discriminate.
  intros H. inversion H; subst. now exists d, size.
Qed.

Lemma parse_photos_written_to (is_photoset : bool) (photos : list pyval) :
  forall (page : nat) (acc : list TumblrPhoto) (photos' : list pyval)
         (r : result (list TumblrPhoto)),
    parse_photos is_photoset page acc photos = (photos', r) ->
    pages_written is_photoset page photos photos'.
Proof.
  induction photos as [|photo rest IH]; intros page acc photos' r; simpl.
  - intros H. inversion H. exact I.
  - destruct (parse_photo is_photoset page photo) as [photo1 [f|e]] eqn:P.
    + destruct (parse_photos is_photoset (S page) (acc ++ [f]) rest)
        as [rest' r'] eqn:R.
      intros H. inversion H; subst. split.
      * eapply parse_photo_written_to; eauto.
      * eapply IH; eauto.
    + intros H. inversion H; subst. split.
      * eapply parse_photo_written_to; eauto.
      * clear. generalize (S page). induction rest; intros n; simpl; auto.
Qed.

Lemma parse_photos_bound_to (is_photoset : bool) (photos : list pyval) :
  forall (page : nat) (acc : list TumblrPhoto) (photos' : list pyval)
         (fs : list TumblrPhoto),
    parse_photos is_photoset page acc photos = (photos', Ok fs) ->
    pages_bound is_photoset page photos photos'.
Proof.
  induction photos as [|photo rest IH]; intros page acc photos' fs; simpl.
  - intros H. inversion H. exact I.
  - destruct (parse_photo is_photoset page photo) as [photo1 [f|e]] eqn:P;
      [|discriminate].
    destruct (parse_photos is_photoset (S page) (acc ++ [f]) rest)
      as [rest' r'] eqn:R.
    intros H. inversion H; subst. split.
    + eapply parse_photo_bound_to; eauto.
    + eapply IH; eauto.
Qed.

Lemma photoset_parse_bound_to (self self' : TumblrPhotoSet)
    (_post _post' : dict) (l : list pyval) :
  TumblrPhotoSet__parse_post self _post = (_post', Ok self') ->
  dict_find "photos" _post = Some (PList l) ->
  exists l',
    _post' = dict_setitem _post "photos" (PList l') /\
    pages_bound (1 <? List.length l)%nat 1 l l'.
Proof.
  unfold TumblrPhotoSet__parse_post. intros H F. revert H.
  destruct (TumblrPost__parse_post _post (post self)) as [base|e];
    [|discriminate].
  unfold dict_get at 1 2. rewrite F. simpl.
  destruct (parse_photos _ _ _ _) as [items' [fs|e]] eqn:P; simpl;
    [|discriminate].
  intros H. inversion H; subst. exists items'. split; [reflexivity|].
  eapply parse_photos_bound_to; eauto.
Qed.

Lemma photoset_parse_written_to (self : TumblrPhotoSet) (_post _post' : dict)
    (r : result TumblrPhotoSet) :
  TumblrPhotoSet__parse_post self _post = (_post', r) ->
  _post' = _post \/
  exists l l',
    dict_find "photos" _post = Some (PList l) /\
    _post' = dict_setitem _post "photos" (PList l') /\
    pages_written (1 <? List.length l)%nat 1 l l'.
Proof.
  unfold TumblrPhotoSet__parse_post.
  destruct (TumblrPost__parse_post _post (post self)) as [base|e].
  2:{ intros H. inversion H. now left. }
  unfold dict_get at 1 2.
  destruct (dict_find "photos" _post) as [v|] eqn:F.
  - destruct v; simpl;
      try (intros H; inversion H; now left);
      try (destruct (parse_photos _ _ _ _) as [items' r'];
           intros H; inversion H; now left).
    destruct (parse_photos _ _ _ _) as [items' r'] eqn:P.
    intros H. inversion H; subst. right. exists l, items'.
    repeat split; auto. eapply parse_photos_written_to; eauto.
  - simpl. intros H. inversion H. now left.
Qed.

(** ** Claims on parsing *)

(** C1 (the code departs from the claim).  On the record whose alternate
    sizes have the widths 100, 400 and 250 and which has no original size,
    line 113 hands [max] the string ['width'] for a key function; calling it
    raises [TypeError], so the constructor raises where the claim has the
    400 entry selected, and the response is left as it was. *)
Theorem best_size_of_alt_sizes_raises :
  TumblrPhotoSet___init__ example_blog alt_only_post
  = (alt_only_post, Raise (TypeError "object is not callable")).
Proof. reflexivity. Qed.

(** C3 (the code departs from the claim).  A response with two photo
    records that list alternate sizes only has N = 2 and yields no Photo at
    all: the constructor raises the [TypeError] of line 113 on the first
    record, [max] being handed a string for its key, where the claim has
    two photos with the pages 1 and 2. *)
Theorem two_photo_set_without_original_sizes_raises :
  py_len (dict_get alt_only_pair_post "photos" (PList [])) = Ok 2 /\
  TumblrPhotoSet___init__ example_blog alt_only_pair_post
  = (alt_only_pair_post, Raise (TypeError "object is not callable")) /\
  built alt_only_pair_post = None.
Proof. repeat split. Qed.

(** The numbering the loop does when it gets through.  Whenever the
    constructor returns a photo set, it has one photo per photo record, the
    i-th built from the i-th record; for N > 1 records their page numbers
    are 1, 2, ..., N in source order, and the photo of a single record has
    the page number [False].  The constructor does return on every response
    with the mandatory keys, usable optional fields and photo records that
    carry an original size with a url. *)
Theorem photo_page_numbers (b : TumblrBlog) (_post : dict) :
  (forall _post' ps,
      TumblrPhotoSet___init__ b _post = (_post', Ok ps) ->
      exists N,
        py_len (dict_get _post "photos" (PList [])) = Ok N /\
        List.length (files (post ps)) = N /\
        (1 < N -> map page_no (files (post ps))
                  = map (fun i => PInt (Z.of_nat i)) (seq 1 N)) /\
        (N = 1 -> map page_no (files (post ps)) = [PBool false]) /\
        (forall l, dict_find "photos" _post = Some (PList l) ->
                   Forall2 from_record l (files (post ps)))) /\
  (post_okb _post = true ->
   exists _post' ps, TumblrPhotoSet___init__ b _post = (_post', Ok ps)).
Proof.
  split.
  - intros _post' ps H. apply photoset_init_inv in H.
    destruct H as (_ & self' & H & ->).
    apply photoset_parse_inv in H.
    destruct H as (_ & base & n & items & items' & B & L & I & P).
    apply post_parse_fields in B. destruct B as (_ & _ & _ & F & _).
    simpl in F. rewrite F in P.
    pose proof (parse_photos_source _ _ _ _ _ _ P) as (src & Esrc & Hsrc).
    apply parse_photos_pages in P. destruct P as (new & Enew & Hnew).
    rewrite (py_len_iter _ _ _ L I) in Hnew. simpl in *. rewrite Enew.
    exists n. split; [assumption|]. split.
    + rewrite <- (length_map page_no), Hnew, length_map. apply length_seq.
    + split; [|split].
      * intros Hn. rewrite Hnew.
        assert ((1 <? n)%nat = true) as -> by now apply Nat.ltb_lt.
        reflexivity.
      * intros ->. now rewrite Hnew.
      * intros l Hl. unfold dict_get in I. rewrite Hl in I. simpl in I.
        inversion I; subst items. assert (src = new) as -> by congruence.
        assumption.
  - intros H.
    destruct (photoset_parse_ok (mkPhotoSet (TumblrPost_defaults b) PNone) _post H)
      as (p' & self' & E).
    unfold TumblrPhotoSet___init__, se_bind, se_ret. rewrite E. eauto.
Qed.

Lemma photo_page_numbers_witness :
  (exists _post' ps,
      TumblrPhotoSet___init__ example_blog trip_post = (_post', Ok ps) /\
      map page_no (files (post ps)) = [PInt 1; PInt 2; PInt 3]) /\
  (exists _post' ps,
      TumblrPhotoSet___init__ example_blog single_post = (_post', Ok ps) /\
      map page_no (files (post ps)) = [PBool false]).
Proof.
  split.
  - destruct (photo_page_numbers example_blog trip_post) as [Hnum Hok].
    destruct (Hok eq_refl) as (p' & ps & E). exists p', ps. split; [exact E|].
    destruct (Hnum _ _ E) as (N & L & _ & Hgt & _).
    simpl in L. inversion L; subst N. apply Hgt. lia.
  - destruct (photo_page_numbers example_blog single_post) as [Hnum Hok].
    destruct (Hok eq_refl) as (p' & ps & E). exists p', ps. split; [exact E|].
    destruct (Hnum _ _ E) as (N & L & _ & _ & Hone & _).
    simpl in L. inversion L; subst N. now apply Hone.
Defined.

(** C4, as stated, fails: a mapping with the three mandatory keys whose tags
    are the number 5 does not parse, [set(5)] raising [TypeError]. *)
Lemma post_parsing_rejects_scalar_tags :
  mandatory_okb scalar_tags_post = true /\
  TumblrPost___init__ example_blog scalar_tags_post
  = (scalar_tags_post, Raise (TypeError "object is not iterable")).
Proof. split; reflexivity. Qed.

(** C4, amended.  For a mapping whose optional fields are usable (a string
    ['post_url'] and iterable ['tags'] of hashable values, when present):
    with the keys id, type and date the parse succeeds and the three fields
    are the input's values; the parse fails whenever one of the three keys
    is missing; and it fails in that case only, with the [KeyError] of a
    missing key. *)
Theorem post_parsing_mandatory_fields (b : TumblrBlog) (_post : dict) :
  (optional_okb _post = true -> mandatory_okb _post = true ->
   exists p,
     TumblrPost___init__ b _post = (_post, Ok p) /\
     dict_find "id" _post = Some (id p) /\
     dict_find "type" _post = Some (type p) /\
     dict_find "date" _post = Some (post_date p)) /\
  (mandatory_okb _post = false ->
   exists e, TumblrPost___init__ b _post = (_post, Raise e)) /\
  (optional_okb _post = true ->
   forall e, snd (TumblrPost___init__ b _post) = Raise e ->
             mandatory_okb _post = false /\
             exists k, e = KeyError k /\ In k ["id"; "type"; "date"] /\
                       dict_find k _post = None).
Proof.
  unfold TumblrPost___init__. split; [|split].
  - intros O M.
    destruct (post_parse_ok _post (TumblrPost_defaults b) M O) as [p Hp].
    exists p. rewrite Hp. split; [reflexivity|].
    apply post_parse_fields in Hp. tauto.
  - intros M.
    destruct (post_parse_missing _post (TumblrPost_defaults b) M) as [e ->].
    eauto.
  - intros O e H. simpl in H. split.
    + destruct (mandatory_okb _post) eqn:M; [|reflexivity].
      destruct (post_parse_ok _post (TumblrPost_defaults b) M O) as [p Hp].
      congruence.
    + eapply post_parse_raise_cause; eauto.
Qed.

Lemma post_parsing_mandatory_fields_witness :
  (exists p,
      TumblrPost___init__ example_blog trip_post = (trip_post, Ok p) /\
      dict_find "id" trip_post = Some (id p) /\
      dict_find "type" trip_post = Some (type p) /\
      dict_find "date" trip_post = Some (post_date p)) /\
  (exists e, TumblrPost___init__ example_blog [("id", PInt 3); ("type", PStr "text")]
             = ([("id", PInt 3); ("type", PStr "text")], Raise e)) /\
  (forall e, snd (TumblrPost___init__ example_blog [("id", PInt 3)]) = Raise e ->
             mandatory_okb [("id", PInt 3)] = false /\
             exists k, e = KeyError k /\ In k ["id"; "type"; "date"] /\
                       dict_find k [("id", PInt 3)] = None).
Proof.
  split; [|split].
  - apply (post_parsing_mandatory_fields example_blog trip_post); reflexivity.
  - apply (post_parsing_mandatory_fields example_blog
             [("id", PInt 3); ("type", PStr "text")]); reflexivity.
  - apply (post_parsing_mandatory_fields example_blog [("id", PInt 3)]);
      reflexivity.
Defined.

(** C8 (the code departs from the claim).  The photo set built from a
    response with the caption "Trip" has the title [None], not the caption,
    and the one built from a response with the title "Sunset" and no caption
    has the title [None], not that title: line 100 sets the title to [None]
    after the base constructor has run the parse that resolved it. *)
Theorem constructed_title_is_unset :
  (exists ps,
      built trip_post = Some ps /\
      dict_find "caption" trip_post = Some (PStr "Trip") /\
      title ps = PNone) /\
  (exists ps,
      built single_post = Some ps /\
      dict_find "caption" single_post = None /\
      dict_find "title" single_post = Some (PStr "Sunset") /\
      title ps = PNone).
Proof. split; eexists; repeat split. Qed.

(** The order line 107 follows inside the parse.  The title
    [TumblrPhotoSet._parse_post] binds is the caption with a caption key;
    without one and with a title key it is that title; with neither it is
    [None], whatever the post id is. *)
Theorem title_fallback_order (self self' : TumblrPhotoSet) (_post _post' : dict) :
  TumblrPhotoSet__parse_post self _post = (_post', Ok self') ->
  (forall c, dict_find "caption" _post = Some c -> title self' = c) /\
  (dict_find "caption" _post = None ->
   forall t, dict_find "title" _post = Some t -> title self' = t) /\
  (dict_find "caption" _post = None -> dict_find "title" _post = None ->
   title self' = PNone).
Proof.
  intros H. apply photoset_parse_inv in H. destruct H as [-> _].
  unfold resolve_title, dict_get. repeat split.
  - now intros c ->.
  - now intros -> t ->.
  - now intros -> ->.
Qed.

Lemma title_fallback_order_witness :
  (exists _post' self',
      TumblrPhotoSet__parse_post (mkPhotoSet (TumblrPost_defaults example_blog) PNone)
        trip_post = (_post', Ok self') /\ title self' = PStr "Trip") /\
  (exists _post' self',
      TumblrPhotoSet__parse_post (mkPhotoSet (TumblrPost_defaults example_blog) PNone)
        single_post = (_post', Ok self') /\ title self' = PStr "Sunset") /\
  (exists _post' self',
      TumblrPhotoSet__parse_post (mkPhotoSet (TumblrPost_defaults example_blog) PNone)
        untitled_post = (_post', Ok self') /\ title self' = PNone /\
      title self' <> id (post self')).
Proof.
  split; [|split]; eexists; eexists; (split; [reflexivity|]).
  - exact (proj1 (title_fallback_order _ _ trip_post _ eq_refl) _ eq_refl).
  - exact (proj1 (proj2 (title_fallback_order _ _ single_post _ eq_refl))
             eq_refl _ eq_refl).
  - split; [|discriminate].
    exact (proj2 (proj2 (title_fallback_order _ _ untitled_post _ eq_refl))
             eq_refl eq_refl).
Defined.

(** C9, as stated, fails: constructing a photo set from the single-photo
    response binds ['page_no'] inside the photo's original size, so the
    mapping the caller passed is not what it was. *)
Lemma photoset_parsing_writes_to_response :
  exists ps,
    TumblrPhotoSet___init__ example_blog single_post
    = ([("id", PInt 7); ("type", PStr "photo"); ("date", PStr "2016-03-02");
        ("title", PStr "Sunset");
        ("photos",
         PList [PDict [("original_size",
                        PDict [("url", PStr "http://media/s.jpg");
                               ("width", PInt 1280); ("height", PInt 1280);
                               ("page_no", PBool false)])]])],
       Ok ps) /\
    fst (TumblrPhotoSet___init__ example_blog single_post) <> single_post.
Proof.
  eexists. split; [reflexivity|]. discriminate.
Qed.

(** C9, amended.  Constructing a Post leaves the response mapping as it
    was.  Constructing a Photo-Set leaves it as it was or replaces the list
    under ['photos'] by one of the same length in which a record is either
    untouched or has ['page_no'] bound in its ['original_size'] entry, to
    the record's page number (counted from 1) when the list has more than
    one record and to [False] when it has one; when the constructor
    returns, every record of the list has it bound so.  Nothing else is
    written: the keys of the mapping keep their order and every other key
    keeps its value. *)
Theorem parsing_writes_page_numbers_only (b : TumblrBlog) (_post : dict) :
  fst (TumblrPost___init__ b _post) = _post /\
  (fst (TumblrPhotoSet___init__ b _post) = _post \/
   exists l l',
     dict_find "photos" _post = Some (PList l) /\
     fst (TumblrPhotoSet___init__ b _post)
     = dict_setitem _post "photos" (PList l') /\
     pages_written (1 <? List.length l)%nat 1 l l') /\
  (forall _post' ps l,
      TumblrPhotoSet___init__ b _post = (_post', Ok ps) ->
      dict_find "photos" _post = Some (PList l) ->
      exists l',
        _post' = dict_setitem _post "photos" (PList l') /\
        pages_bound (1 <? List.length l)%nat 1 l l') /\
  map fst (fst (TumblrPhotoSet___init__ b _post)) = map fst _post /\
  (forall k, k <> "photos" ->
             dict_find k (fst (TumblrPhotoSet___init__ b _post))
             = dict_find k _post).
Proof.
  split; [reflexivity|].
  assert (fst (TumblrPhotoSet___init__ b _post) = _post \/
          exists l l',
            dict_find "photos" _post = Some (PList l) /\
            fst (TumblrPhotoSet___init__ b _post)
            = dict_setitem _post "photos" (PList l') /\
            pages_written (1 <? List.length l)%nat 1 l l') as F.
  { unfold TumblrPhotoSet___init__, se_bind, se_ret.
    destruct (TumblrPhotoSet__parse_post _ _post) as [p' r] eqn:P.
    apply photoset_parse_written_to in P.
    destruct r; simpl; exact P. }
  split; [exact F|]. split.
  { intros _post' ps l H Hl. apply photoset_init_inv in H.
    destruct H as (_ & self' & H & _).
    eapply photoset_parse_bound_to; eauto. }
  destruct F as [-> | (l & l' & Hl & -> & _)]; [auto|]. split.
  - apply dict_keys_setitem. congruence.
  - intros k Hk. apply dict_find_setitem_other. congruence.
Qed.

Lemma parsing_writes_page_numbers_only_witness :
  (exists l',
      fst (TumblrPhotoSet___init__ example_blog trip_post)
      = dict_setitem trip_post "photos" (PList l') /\
      pages_bound true 1
        [PDict [("original_size", size_entry "http://media/a.jpg" 1280)];
         PDict [("original_size", size_entry "http://media/b.jpg" 1280)];
         PDict [("original_size", size_entry "http://media/c.jpg" 1280)]] l') /\
  (exists l',
      fst (TumblrPhotoSet___init__ example_blog single_post)
      = dict_setitem single_post "photos" (PList l') /\
      pages_bound false 1
        [PDict [("original_size", size_entry "http://media/s.jpg" 1280)]] l') /\
  dict_find "caption" (fst (TumblrPhotoSet___init__ example_blog trip_post))
  = dict_find "caption" trip_post.
Proof.
  split; [|split].
  - destruct (TumblrPhotoSet___init__ example_blog trip_post) as [p' r] eqn:E.
    destruct r as [ps|e]; [|vm_compute in E; discriminate].
    exact (proj1 (proj2 (proj2
             (parsing_writes_page_numbers_only example_blog trip_post)))
             p' ps _ E eq_refl).
  - destruct (TumblrPhotoSet___init__ example_blog single_post)
      as [p' r] eqn:E.
    destruct r as [ps|e]; [|vm_compute in E; discriminate].
    exact (proj1 (proj2 (proj2
             (parsing_writes_page_numbers_only example_blog single_post)))
             p' ps _ E eq_refl).
  - apply (parsing_writes_page_numbers_only example_blog trip_post).
    discriminate.
Defined.

(** C10 (the code departs from the claim).  The photo set built from a
    response whose caption is the empty string, next to a title, has the
    title [None], not the empty string: the value line 107 resolved is
    overwritten by line 100. *)
Theorem constructed_title_of_empty_caption :
  exists ps,
    built empty_caption_post = Some ps /\
    dict_find "caption" empty_caption_post = Some (PStr "") /\
    title ps = PNone /\ title ps <> PStr "".
Proof. eexists. repeat split. discriminate. Qed.

(** Inside the parse the fallback of line 107 turns on the caption key being
    absent, not on its value: with a caption that is the empty string the
    title bound by [TumblrPhotoSet._parse_post] is the empty string; with a
    caption key, no value under the title key changes the title resolved;
    and the title field is what is resolved only without a caption key. *)
Theorem empty_caption_is_the_title (self self' : TumblrPhotoSet)
    (_post _post' : dict) :
  TumblrPhotoSet__parse_post self _post = (_post', Ok self') ->
  (dict_find "caption" _post = Some (PStr "") -> title self' = PStr "") /\
  (dict_find "caption" _post <> None ->
   forall t, resolve_title (dict_setitem _post "title" t) = title self') /\
  (dict_find "caption" _post = None ->
   title self' = dict_get _post "title" PNone).
Proof.
  intros H. apply photoset_parse_inv in H. destruct H as [-> _].
  unfold resolve_title, dict_get. repeat split.
  - now intros ->.
  - intros Hc t. rewrite dict_find_setitem_other by discriminate.
    destruct (dict_find "caption" _post); congruence.
  - now intros ->.
Qed.

Lemma empty_caption_is_the_title_witness :
  exists _post' self',
    TumblrPhotoSet__parse_post (mkPhotoSet (TumblrPost_defaults example_blog) PNone)
      empty_caption_post = (_post', Ok self') /\
    title self' = PStr "" /\
    resolve_title (dict_setitem empty_caption_post "title" (PStr "Other"))
    = title self'.
Proof.
  eexists. eexists. split; [reflexivity|]. split.
  - exact (proj1 (empty_caption_is_the_title _ _ empty_caption_post _ eq_refl)
             eq_refl).
  - apply (proj1 (proj2 (empty_caption_is_the_title _ _ empty_caption_post _
                           eq_refl))).
    discriminate.
Defined.

(** ** Save paths: the base rule, lines 163-178 *)

Lemma file_filepath_ok (sanitize : string -> string) (c : container)
    (context : Context) (request_data : pyval) :
  TumblrFile_filepath sanitize c [ArgContext context; ArgValue request_data]
  = Ok (basedir_of sanitize c context).
Proof. reflexivity. Qed.

(** Categorizing by user alone adds one segment, the sanitized blog name. *)
Lemma basedir_user_only (sanitize : string -> string) (c : container)
    (root : string) :
  basedir_of sanitize c (mkContext root true false false)
  = joinpath (basedir_of sanitize c (mkContext root false false false))
      (sanitize (name (blog (container_post c)))).
Proof. reflexivity. Qed.

(** The base rule does not read the photoset toggle. *)
Lemma basedir_ignores_photosets (sanitize : string -> string) (c : container)
    (root : string) (u t p p' : bool) :
  basedir_of sanitize c (mkContext root u t p)
  = basedir_of sanitize c (mkContext root u t p').
Proof. reflexivity. Qed.

(** ** Save paths: [TumblrPhoto.filepath] *)

(** The call of line 208 supplies one argument where two are required, so
    every call on a photo of a photo set stops there, the side channel not
    yet touched. *)
Lemma photo_filepath_of_photoset (sanitize : string -> string)
    (as_string : URL -> string)
    (ps : TumblrPhotoSet) (self : TumblrPhoto) (context : Context)
    (request_data : pyval) :
  TumblrPhoto_filepath sanitize as_string (PhotoSetContainer ps) self context request_data
  = (request_data, Raise missing_argument).
Proof. reflexivity. Qed.

Lemma photo_filepath_of_post (sanitize : string -> string)
    (as_string : URL -> string)
    (p : TumblrPost) (self : TumblrPhoto) (context : Context)
    (request_data : pyval) :
  TumblrPhoto_filepath sanitize as_string (PostContainer p) self context request_data
  = (request_data, Raise AssertionError).
Proof. reflexivity. Qed.

(** The statements after line 208 do compose the paths of the two scenarios
    when handed the base directory and a photo set that still has the title
    [_parse_post] gave it. *)
Lemma rest_composes_trip_path :
  exists ps f,
    parsed trip_post = Some ps /\ nth_error (files (post ps)) 1 = Some f /\
    filepath_rest keep as_written ps f all_on
      (basedir_of keep (PhotoSetContainer ps) all_on) empty_progress
    = (PDict [("progress_data",
               PDict [("Caption", PStr "Trip"); ("Photoset Page", PStr "2 / 3")])],
       Ok "/out/example/photos/42/p2_Trip.jpg").
Proof. eexists. eexists. repeat split. Qed.

Lemma rest_composes_single_path :
  exists ps f,
    parsed single_post = Some ps /\ nth_error (files (post ps)) 0 = Some f /\
    filepath_rest keep as_written ps f all_on
      (basedir_of keep (PhotoSetContainer ps) all_on) empty_progress
    = (PDict [("progress_data", PDict [("Caption", PStr "Sunset")])],
       Ok "/out/example/photos/Sunset.jpg").
Proof. eexists. eexists. repeat split. Qed.

(** With the photo set the constructor returns, whose title line 100 has
    reset, the same statements put [None] where the title goes. *)
Lemma rest_composes_reset_title :
  exists ps f,
    built trip_post = Some ps /\ photo_at trip_post 1 = Some f /\
    filepath_rest keep as_written ps f all_on
      (basedir_of keep (PhotoSetContainer ps) all_on) empty_progress
    = (PDict [("progress_data",
               PDict [("Caption", PNone); ("Photoset Page", PStr "2 / 3")])],
       Ok "/out/example/photos/42/p2_None.jpg").
Proof. eexists. eexists. repeat split. Qed.

(** Writing a progress entry either fails on the shape of the side channel
    or succeeds; a success says so for any later write. *)
Lemma set_progress_cases (k : string) (v : pyval) (request_data : pyval) :
  (exists d pd,
      request_data = PDict d /\ dict_find "progress_data" d = Some (PDict pd) /\
      set_progress k v request_data
      = (PDict (dict_setitem d "progress_data" (PDict (dict_setitem pd k v))),
         Ok tt)) \/
  (exists e, set_progress k v request_data = (request_data, Raise e) /\
             (exn_name e = "KeyError" \/ exn_name e = "TypeError")).
Proof.
  unfold set_progress.
  destruct request_data as [| | | | |d]; simpl;
    try (right; eexists; split; [reflexivity | simpl; auto]).
  unfold dict_getitem.
  destruct (dict_find "progress_data" d) as [pd|] eqn:F; simpl;
    try (right; eexists; split; [reflexivity | simpl; auto]).
  destruct pd; simpl;
    try (right; eexists; split; [reflexivity | simpl; auto]).
  left. eauto.
Qed.

Lemma set_progress_again (k k' : string) (v v' : pyval) (d pd : dict) :
  dict_find "progress_data" d = Some (PDict pd) ->
  exists rd,
    set_progress k' v'
      (PDict (dict_setitem d "progress_data" (PDict (dict_setitem pd k v))))
    = (rd, Ok tt).
Proof.
  intros _. unfold set_progress. simpl. unfold dict_getitem.
  rewrite dict_find_setitem_same. simpl. eauto.
Qed.

Lemma py_str_exn (v : pyval) (e : exn) :
  py_str v = Raise e -> exn_name e = "NotModelled".
Proof.
  destruct v as [|[]| | | |]; simpl; try discriminate;
    intros H; inversion H; reflexivity.
Qed.

Lemma py_sanitize_exn (sanitize : string -> string) (v : pyval) (e : exn) :
  py_sanitize sanitize v = Raise e -> exn_name e = "NotModelled".
Proof.
  destruct v; simpl; try discriminate; intros H; inversion H; reflexivity.
Qed.

(** ** Composing computations on the side channel *)

Lemma se_bind_ok {S A B} (m : SE S A) (k : A -> SE S B) (s : S) (b : B) :
  snd (se_bind m k s) = Ok b ->
  exists a s', m s = (s', Ok a) /\ snd (k a s') = Ok b.
Proof.
  unfold se_bind. destruct (m s) as [s' [a|e]]; simpl; [eauto | discriminate].
Qed.

Lemma se_bind_raise {S A B} (m : SE S A) (k : A -> SE S B) (s : S) (e : exn) :
  snd (se_bind m k s) = Raise e ->
  snd (m s) = Raise e \/ exists a s', m s = (s', Ok a) /\ snd (k a s') = Raise e.
Proof.
  unfold se_bind. destruct (m s) as [s' [a|e']]; simpl; intros H.
  - right. now exists a, s'.
  - left. simpl. now inversion H.
Qed.

Lemma state_blind_bind {S A B} (m : SE S A) (k : A -> SE S B) :
  state_blind m -> (forall a, state_blind (k a)) -> state_blind (se_bind m k).
Proof.
  intros Hm Hk s1 s2 b1 b2 H1 H2.
  apply se_bind_ok in H1. destruct H1 as (a1 & s1' & M1 & K1).
  apply se_bind_ok in H2. destruct H2 as (a2 & s2' & M2 & K2).
  assert (a1 = a2) as ->.
  { apply (Hm s1 s2); [now rewrite M1 | now rewrite M2]. }
  eapply Hk; eauto.
Qed.

Lemma state_blind_lift {S A} (r : result A) : state_blind (se_lift (S:=S) r).
Proof. intros s1 s2 a1 a2. unfold se_lift. simpl. congruence. Qed.

Lemma state_blind_ret {S A} (a : A) : state_blind (se_ret (S:=S) a).
Proof. intros s1 s2 a1 a2. unfold se_ret. simpl. congruence. Qed.

Lemma state_blind_unit {S} (m : SE S unit) : state_blind m.
Proof. intros s1 s2 [] []. reflexivity. Qed.

Lemma raises_among_bind {S A B} (names : list string) (m : SE S A)
    (k : A -> SE S B) :
  raises_among names m -> (forall a, raises_among names (k a)) ->
  raises_among names (se_bind m k).
Proof.
  intros Hm Hk s e H. apply se_bind_raise in H.
  destruct H as [H | (a & s' & _ & H)]; [eapply Hm | eapply Hk]; eauto.
Qed.

Lemma raises_among_ret {S A} (names : list string) (a : A) :
  raises_among names (se_ret (S:=S) a).
Proof. intros s e. unfold se_ret. simpl. discriminate. Qed.

Lemma raises_among_lift {S A} (names : list string) (r : result A) :
  (forall e, r = Raise e -> In (exn_name e) names) ->
  raises_among names (se_lift (S:=S) r).
Proof. intros H s e. unfold se_lift. simpl. auto. Qed.

Lemma bind_raise {A B} (r : result A) (k : A -> result B) (e : exn) :
  bind r k = Raise e -> r = Raise e \/ exists a, r = Ok a /\ k a = Raise e.
Proof.
  destruct r as [a|e']; simpl; intros H.
  - right. now exists a.
  - left. now inversion H.
Qed.

(** ** The statements after line 208 *)

Lemma set_progress_raises (k : string) (v : pyval) :
  raises_among ["KeyError"; "TypeError"; "NotModelled"] (set_progress k v).
Proof.
  intros rd e H.
  destruct (set_progress_cases k v rd) as [(d & pd & _ & _ & E)|(e0 & E & N)];
    rewrite E in H; simpl in H; [discriminate|].
  inversion H; subst. simpl. destruct N as [-> | ->]; auto.
Qed.

Lemma photoset_segment_exn (sanitize : string -> string) (ps : TumblrPhotoSet)
    (self : TumblrPhoto) (context : Context) (filepath : Path) (e : exn) :
  photoset_segment sanitize ps self context filepath = Raise e ->
  exn_name e = "NotModelled".
Proof.
  unfold photoset_segment.
  destruct (py_bool (page_no self) && Photosets context); [|discriminate].
  intros H. apply bind_raise in H. destruct H as [H | (i & _ & H)].
  - eapply py_str_exn; eauto.
  - simpl in H. discriminate.
Qed.

Lemma stem_exn (sanitize : string -> string) (ps : TumblrPhotoSet)
    (self : TumblrPhoto) (filepath : Path) (e : exn) :
  (pn <- py_str (page_no self) ;;
   pt <- py_str (title ps) ;;
   seg <- py_sanitize sanitize (PStr ("p" ++ pn ++ "_" ++ pt)) ;;
   Ok (joinpath filepath seg)) = Raise e ->
  exn_name e = "NotModelled".
Proof.
  intros H. apply bind_raise in H. destruct H as [H | (pn & _ & H)].
  - eapply py_str_exn; eauto.
  - apply bind_raise in H. destruct H as [H | (pt & _ & H)].
    + eapply py_str_exn; eauto.
    + simpl in H. discriminate.
Qed.

Lemma filename_segment_raises (sanitize : string -> string)
    (ps : TumblrPhotoSet) (self : TumblrPhoto) (filepath : Path) :
  raises_among ["KeyError"; "TypeError"; "NotModelled"]
    (filename_segment sanitize ps self filepath).
Proof.
  unfold filename_segment. destruct (py_bool (page_no self)).
  - apply raises_among_bind.
    + apply raises_among_lift. intros e H. apply stem_exn in H.
      rewrite H. simpl. auto.
    + intros fp. apply raises_among_bind.
      * apply raises_among_lift. intros e H. apply py_str_exn in H.
        rewrite H. simpl. auto.
      * intros cur. apply raises_among_bind.
        -- apply set_progress_raises.
        -- intros _. apply raises_among_ret.
  - apply raises_among_lift. intros e H. apply bind_raise in H.
    destruct H as [H | (seg & _ & H)]; [|discriminate].
    apply py_sanitize_exn in H. rewrite H. simpl. auto.
Qed.

(** The exceptions of those statements come from the shape of the side
    channel or from values outside the model; none is about the title. *)
Lemma rest_raises (sanitize : string -> string)
    (as_string : URL -> string) (ps : TumblrPhotoSet)
    (self : TumblrPhoto) (context : Context) (filepath : Path) :
  raises_among ["KeyError"; "TypeError"; "NotModelled"]
    (filepath_rest sanitize as_string ps self context filepath).
Proof.
  unfold filepath_rest. apply raises_among_bind.
  - apply set_progress_raises.
  - intros _. apply raises_among_bind.
    + apply raises_among_lift. intros e H. apply photoset_segment_exn in H.
      rewrite H. simpl. auto.
    + intros fp. apply raises_among_bind.
      * apply filename_segment_raises.
      * intros fp'. apply raises_among_ret.
Qed.

(** The path they compose depends on the photo, its set, the context and
    the base directory, and on nothing the side channel holds. *)
Lemma rest_state_blind (sanitize : string -> string)
    (as_string : URL -> string) (ps : TumblrPhotoSet)
    (self : TumblrPhoto) (context : Context) (filepath : Path) :
  state_blind (filepath_rest sanitize as_string ps self context filepath).
Proof.
  unfold filepath_rest. apply state_blind_bind.
  - apply state_blind_unit.
  - intros _. apply state_blind_bind.
    + apply state_blind_lift.
    + intros fp. apply state_blind_bind.
      * unfold filename_segment. destruct (py_bool (page_no self)).
        -- apply state_blind_bind; [apply state_blind_lift|].
           intros fp'. apply state_blind_bind; [apply state_blind_lift|].
           intros cur. apply state_blind_bind; [apply state_blind_unit|].
           intros _. apply state_blind_ret.
        -- apply state_blind_lift.
      * intros fp'. apply state_blind_ret.
Qed.

(** They do not look at whether the title is set: for a paginated photo of
    a set whose title is [None], they format it into the file name. *)
Lemma rest_unset_title (sanitize : string -> string)
    (as_string : URL -> string) (ps : TumblrPhotoSet)
    (self : TumblrPhoto) (context : Context) (filepath : Path)
    (n : Z) (i : string) (d pd : dict) :
  title ps = PNone -> page_no self = PInt n -> n <> 0%Z ->
  py_str (id (post ps)) = Ok i ->
  dict_find "progress_data" d = Some (PDict pd) ->
  snd (filepath_rest sanitize as_string ps self context filepath (PDict d))
  = Ok (Path_str
          (joinpath (if Photosets context
                     then joinpath filepath (sanitize i) else filepath)
             (sanitize ("p" ++ str_of_Z n ++ "_None")))
        ++ snd (splitext (as_string (url (file self))))).
Proof.
  intros T P N I F.
  assert (py_bool (PInt n) = true) as B.
  { simpl. apply negb_true_iff. now apply Z.eqb_neq. }
  unfold filepath_rest, se_bind at 1.
  destruct (set_progress_cases "Caption" (title ps) (PDict d))
    as [(d0 & pd0 & E & F0 & ->)|(e & E & _)].
  2:{ unfold set_progress in E. simpl in E. unfold dict_getitem in E.
      rewrite F in E. simpl in E. inversion E. }
  inversion E; subst d0. rewrite F in F0. inversion F0; subst pd0.
  unfold se_bind at 1, se_lift, photoset_segment. rewrite P, B, I. simpl.
  unfold filename_segment. rewrite P, B, T. simpl.
  destruct (Photosets context); unfold se_bind, se_lift, se_ret; simpl;
    match goal with
    | |- context [set_progress ?k ?v _] =>
        destruct (set_progress_again "Caption" k PNone v d pd F) as [rd ->]
    end; reflexivity.
Qed.

(** On a side channel of the expected shape a write succeeds, and it leaves
    the shape; a write that succeeds was on such a channel. *)
Lemma set_progress_ok (k : string) (v : pyval) (rd : pyval) :
  has_progress rd ->
  exists rd', set_progress k v rd = (rd', Ok tt) /\ has_progress rd'.
Proof.
  intros (d & pd & -> & F). unfold set_progress. simpl. unfold dict_getitem.
  rewrite F. simpl. eexists. split; [reflexivity|].
  eexists. eexists. split; [reflexivity|]. apply dict_find_setitem_same.
Qed.

Lemma set_progress_ok_inv (k : string) (v : pyval) (rd rd' : pyval) (u : unit) :
  set_progress k v rd = (rd', Ok u) -> has_progress rd /\ has_progress rd'.
Proof.
  intros H.
  destruct (set_progress_cases k v rd) as [(d & pd & -> & F & E)|(e & E & _)];
    rewrite E in H; inversion H; subst.
  split.
  - now exists d, pd.
  - eexists. eexists. split; [reflexivity|]. apply dict_find_setitem_same.
Qed.

Lemma filename_segment_again (sanitize : string -> string) (ps : TumblrPhotoSet)
    (self : TumblrPhoto) (filepath fp : Path) (s0 s0' s1 : pyval) :
  filename_segment sanitize ps self filepath s0 = (s0', Ok fp) ->
  has_progress s1 ->
  exists s1', filename_segment sanitize ps self filepath s1 = (s1', Ok fp).
Proof.
  unfold filename_segment. destruct (py_bool (page_no self)).
  - unfold se_bind, se_lift, se_ret.
    destruct (_ <- py_str (page_no self) ;; _) as [fp'|e]; [|discriminate].
    destruct (py_str (page_no self)) as [cur|e]; [|discriminate].
    destruct (set_progress "Photoset Page" _ s0) as [t [[]|e]] eqn:P;
      [|discriminate].
    intros H Hs. inversion H; subst.
    destruct (set_progress_ok "Photoset Page"
                (PStr (cur ++ " / " ++ str_of_nat (List.length (files (post ps)))))
                s1 Hs) as (s1' & -> & _).
    eauto.
  - unfold se_lift. intros H _. inversion H. eauto.
Qed.

(** A second call on the side channel the first one left returns the same
    path. *)
Lemma rest_twice (sanitize : string -> string)
    (as_string : URL -> string) (ps : TumblrPhotoSet)
    (self : TumblrPhoto) (context : Context) (filepath : Path)
    (rd rd' : pyval) (p : string) :
  filepath_rest sanitize as_string ps self context filepath rd = (rd', Ok p) ->
  snd (filepath_rest sanitize as_string ps self context filepath rd') = Ok p.
Proof.
  unfold filepath_rest, se_bind at 1 2 3, se_lift at 1, se_ret at 1.
  destruct (set_progress "Caption" (title ps) rd) as [s1 [[]|e]] eqn:C;
    [|discriminate].
  destruct (photoset_segment sanitize ps self context filepath) as [fp1|e] eqn:G;
    [|discriminate].
  destruct (filename_segment sanitize ps self fp1 s1) as [s2 [fp2|e]] eqn:N;
    [|discriminate].
  intros H. inversion H; subst rd' p. clear H.
  apply set_progress_ok_inv in C. destruct C as [_ H1].
  assert (has_progress s2) as H2.
  { revert N. unfold filename_segment. destruct (py_bool (page_no self)).
    - unfold se_bind, se_lift, se_ret.
      destruct (_ <- py_str (page_no self) ;; _) as [fp'|e]; [|discriminate].
      destruct (py_str (page_no self)) as [cur|e]; [|discriminate].
      destruct (set_progress "Photoset Page" _ s1) as [t [[]|e]] eqn:P;
        [|discriminate].
      intros H. inversion H; subst. now apply set_progress_ok_inv in P.
    - unfold se_lift. intros H. inversion H; subst. exact H1. }
  destruct (set_progress_ok "Caption" (title ps) s2 H2) as (s3 & C3 & H3).
  destruct (filename_segment_again sanitize ps self fp1 fp2 s1 s2 s3 N H3)
    as (s4 & N4).
  unfold se_bind, se_lift, se_ret. rewrite C3, N4. reflexivity.
Qed.

(** For a photo without a page number the photoset toggle changes nothing
    in those statements. *)
Lemma rest_ignores_photosets (sanitize : string -> string)
    (as_string : URL -> string) (ps : TumblrPhotoSet)
    (self : TumblrPhoto) (root : string) (u t : bool) (filepath : Path) :
  py_bool (page_no self) = false ->
  filepath_rest sanitize as_string ps self (mkContext root u t true) filepath
  = filepath_rest sanitize as_string ps self (mkContext root u t false) filepath.
Proof.
  intros H. unfold filepath_rest, photoset_segment. now rewrite H.
Qed.

(** ** Claims on save paths *)

(** C2 (the code departs from the claim).  For the photo set built from
    post 42 of blog "example" with three photos, resolving the path of the
    photo on page 2 under save root "/out" with every toggle on raises
    [TypeError] at line 208 and records nothing in the side channel, where
    the claim has "/out/example/photos/42/p2_Trip.jpg" returned and "2 / 3"
    recorded.  The set's title is [None] by then, not "Trip". *)
Theorem trip_photo_path_raises :
  exists ps f,
    built trip_post = Some ps /\ photo_at trip_post 1 = Some f /\
    page_no f = PInt 2 /\ List.length (files (post ps)) = 3 /\
    id (post ps) = PInt 42 /\ title ps = PNone /\
    forall sanitize as_string,
      TumblrPhoto_filepath sanitize as_string (PhotoSetContainer ps) f all_on empty_progress
      = (empty_progress, Raise missing_argument).
Proof. eexists. eexists. repeat split. Qed.

(** C5, as stated, fails: for the second photo of a set that has neither
    caption nor title, path resolution does not surface an UnresolvedTitle
    error; what it raises is the [TypeError] of line 208. *)
Lemma unset_title_surfaces_no_title_error :
  exists ps f,
    built untitled_post = Some ps /\ photo_at untitled_post 1 = Some f /\
    title ps = PNone /\
    snd (TumblrPhoto_filepath keep as_written (PhotoSetContainer ps) f all_on empty_progress)
    = Raise missing_argument /\
    ~ surfaces "UnresolvedTitle"
        (snd (TumblrPhoto_filepath keep as_written (PhotoSetContainer ps) f all_on
                empty_progress)).
Proof.
  eexists. eexists. repeat split.
  intros (e & H & N). inversion H; subst. discriminate.
Qed.

(** C5, amended.  The code has no UnresolvedTitle error and never tests
    whether the title is set: no call of path resolution, and no run of the
    statements that compose the file name, raises an exception of that
    class; and for a paginated photo of a set whose title is [None] those
    statements return a path whose file name is the sanitized
    "p<page>_None". *)
Theorem no_title_check_in_path_resolution (sanitize : string -> string)
    (as_string : URL -> string)
    (self : TumblrPhoto) (context : Context) (request_data : pyval) :
  (forall c,
      ~ surfaces "UnresolvedTitle"
          (snd (TumblrPhoto_filepath sanitize as_string c self context request_data))) /\
  (forall ps filepath,
      ~ surfaces "UnresolvedTitle"
          (snd (filepath_rest sanitize as_string ps self context filepath request_data))) /\
  (forall ps filepath n i,
      title ps = PNone -> page_no self = PInt n -> n <> 0%Z ->
      py_str (id (post ps)) = Ok i -> has_progress request_data ->
      snd (filepath_rest sanitize as_string ps self context filepath request_data)
      = Ok (Path_str
              (joinpath (if Photosets context
                         then joinpath filepath (sanitize i) else filepath)
                 (sanitize ("p" ++ str_of_Z n ++ "_None")))
            ++ snd (splitext (as_string (url (file self)))))).
Proof.
  split; [|split].
  - intros c (e & H & N). destruct c; simpl in H; inversion H; subst;
      discriminate.
  - intros ps filepath (e & H & N). apply rest_raises in H. rewrite N in H.
    simpl in H. intuition discriminate.
  - intros ps filepath n i T P N I (d & pd & -> & F).
    eapply rest_unset_title; eauto.
Qed.

Lemma no_title_check_in_path_resolution_witness :
  exists ps f,
    built untitled_post = Some ps /\ photo_at untitled_post 1 = Some f /\
    snd (filepath_rest keep as_written ps f all_on
           (basedir_of keep (PhotoSetContainer ps) all_on) empty_progress)
    = Ok "/out/example/photos/9/p2_None.jpg".
Proof.
  eexists. eexists. split; [reflexivity|]. split; [reflexivity|].
  etransitivity.
  - apply (no_title_check_in_path_resolution keep as_written) with (n := 2%Z) (i := "9").
    + reflexivity.
    + reflexivity.
    + discriminate.
    + reflexivity.
    + exists [("progress_data", PDict [])], []. split; reflexivity.
  - reflexivity.
Defined.

(** C6 (the code departs from the claim).  For the photo of the
    single-photo set, which has no page number, path resolution raises the
    [TypeError] of line 208 with categorize-by-user alone, with
    categorize-by-photoset alone and with every toggle off: no path is
    returned, so none that has the blog name for an extra segment. *)
Theorem toggled_photo_paths_raise :
  exists ps f,
    built single_post = Some ps /\ photo_at single_post 0 = Some f /\
    page_no f = PBool false /\
    forall sanitize as_string request_data,
      TumblrPhoto_filepath sanitize as_string (PhotoSetContainer ps) f user_only request_data
      = (request_data, Raise missing_argument) /\
      TumblrPhoto_filepath sanitize as_string (PhotoSetContainer ps) f photoset_only request_data
      = (request_data, Raise missing_argument) /\
      TumblrPhoto_filepath sanitize as_string (PhotoSetContainer ps) f all_off request_data
      = (request_data, Raise missing_argument).
Proof. eexists. eexists. repeat split. Qed.

(** C7 (the code departs from the claim).  Path resolution called twice
    on the photo of page 2 of the trip set with one context, the second
    call on the side channel the first one left: each call raises the
    [TypeError] of line 208 and neither returns a path, whatever the side
    channel holds, where the claim has both return one and the same path.
    The statements after line 208 would do so ([rest_state_blind],
    [rest_twice]); the call of line 208 keeps them from running. *)
Theorem repeated_path_resolution_raises :
  exists ps f,
    built trip_post = Some ps /\ photo_at trip_post 1 = Some f /\
    forall sanitize as_string request_data,
      TumblrPhoto_filepath sanitize as_string (PhotoSetContainer ps) f all_on
        request_data
      = (request_data, Raise missing_argument) /\
      TumblrPhoto_filepath sanitize as_string (PhotoSetContainer ps) f all_on
        (fst (TumblrPhoto_filepath sanitize as_string (PhotoSetContainer ps) f
                all_on request_data))
      = (request_data, Raise missing_argument) /\
      forall p,
        snd (TumblrPhoto_filepath sanitize as_string (PhotoSetContainer ps) f
               all_on request_data) <> Ok p.
Proof.
  eexists. eexists. split; [reflexivity|]. split; [reflexivity|].
  intros sanitize as_string request_data. repeat split. discriminate.
Qed.

(** ** Further properties of the post containers *)

Lemma atom_eqb_str (v : pyval) (s : string) :
  atom_eqb v (PStr s) = true <-> v = PStr s.
Proof.
  destruct v; simpl; split; try discriminate; try congruence.
  - intros H. apply String.eqb_eq in H. now subst.
  - intros H. inversion H. apply String.eqb_refl.
Qed.

(** X1.  The classification of a post, lines 47-69: [is_text] holds exactly
    for the type 'text', [is_photo] exactly for 'photo' and 'link',
    [is_video] exactly for 'video'; so no post is in two classes, and a post
    of any other type is in none. *)
Theorem post_classes (p : TumblrPost) :
  (is_text p = true <-> type p = PStr "text") /\
  (is_photo p = true <-> type p = PStr "photo" \/ type p = PStr "link") /\
  (is_video p = true <-> type p = PStr "video") /\
  is_text p && is_photo p = false /\
  is_text p && is_video p = false /\
  is_photo p && is_video p = false.
Proof.
  unfold is_text, is_photo, is_video.
  assert (forall s, atom_eqb (type p) (PStr s) = true <-> type p = PStr s) as E
      by (intros s; apply atom_eqb_str).
  repeat split; try (apply E); try (intros H; apply E; exact H).
  - intros H. apply orb_true_iff in H. destruct H as [H|H]; apply E in H; auto.
  - intros [H|H]; apply orb_true_iff; [left|right]; now apply E.
  - destruct (atom_eqb (type p) (PStr "text")) eqn:T; [|reflexivity].
    apply E in T. rewrite T. reflexivity.
  - destruct (atom_eqb (type p) (PStr "text")) eqn:T; [|reflexivity].
    apply E in T. rewrite T. reflexivity.
  - destruct (atom_eqb (type p) (PStr "video")) eqn:T;
      [|now rewrite andb_false_r].
    apply E in T. rewrite T. reflexivity.
Qed.

Lemma post_classes_witness :
  is_photo (mkPost example_blog (PInt 1) (PStr "link") None [] PNone PNone [])
  = true /\
  is_text (mkPost example_blog (PInt 1) (PStr "link") None [] PNone PNone [])
  = false.
Proof.
  pose proof (post_classes
                (mkPost example_blog (PInt 1) (PStr "link") None [] PNone
                   PNone []))
    as (T & P & _ & TP & _).
  assert (is_photo
            (mkPost example_blog (PInt 1) (PStr "link") None [] PNone PNone [])
          = true) as H by (apply P; right; reflexivity).
  split; [exact H|]. rewrite H in TP. now rewrite andb_true_r in TP.
Defined.

(** X2.  The optional fields of a parsed post, lines 74-76: the url is
    absent exactly when the mapping has no 'post_url' key (an empty string
    under the key still gives a url object); the note count is the value
    under 'note_count', [None] without the key; the tags are empty without
    the 'tags' key; a base post has no files, and the mapping is left as it
    was. *)
Theorem post_optional_fields (b : TumblrBlog) (_post _post' : dict)
    (p : TumblrPost) :
  TumblrPost___init__ b _post = (_post', Ok p) ->
  _post' = _post /\
  (post_url p = None <-> dict_find "post_url" _post = None) /\
  (forall s, dict_find "post_url" _post = Some (PStr s) ->
             post_url p = Some (mkURL s)) /\
  note_count p = dict_get _post "note_count" PNone /\
  (dict_find "tags" _post = None -> tags p = []) /\
  files p = [] /\ blog p = b.
Proof.
  unfold TumblrPost___init__. intros H. injection H as E P. subst _post'.
  split; [reflexivity|]. revert P.
  unfold TumblrPost__parse_post, dict_contains, dict_getitem.
  destruct (dict_find "id" _post) as [i|]; simpl; try discriminate.
  destruct (dict_find "type" _post) as [t|]; simpl; try discriminate.
  destruct (dict_find "post_url" _post) as [v|] eqn:U; simpl.
  - destruct (URL_new v) as [u|e] eqn:N; simpl; try discriminate.
    destruct (py_set _) as [tg|e] eqn:S; simpl; try discriminate.
    destruct (dict_find "date" _post) as [d|]; simpl; try discriminate.
    intros H. inversion H; subst; simpl. repeat split; try discriminate.
    + intros s Hs. injection Hs as ->. simpl in N. injection N as <-.
      reflexivity.
    + intros T. unfold dict_get in S. rewrite T in S. cbv in S.
      injection S as <-. reflexivity.
  - destruct (py_set _) as [tg|e] eqn:S; simpl; try discriminate.
    destruct (dict_find "date" _post) as [d|]; simpl; try discriminate.
    intros H. inversion H; subst; simpl. repeat split; try discriminate.
    intros T. unfold dict_get in S. rewrite T in S. cbv in S.
      injection S as <-. reflexivity.
Qed.

Lemma post_optional_fields_witness :
  exists p,
    TumblrPost___init__ example_blog text_post = (text_post, Ok p) /\
    post_url p = Some (mkURL "http://example.tumblr.com/post/12") /\
    note_count p = PInt 3.
Proof.
  eexists. split; [reflexivity|].
  pose proof (post_optional_fields example_blog text_post _ _ eq_refl)
    as (_ & _ & U & N & _).
  split; [exact (U _ eq_refl) | exact N].
Defined.

(** *** The tags as a set *)

Lemma atom_eqb_sym (a b : pyval) : atom_eqb a b = atom_eqb b a.
Proof.
  destruct a as [|[]| | | |], b as [|[]| | | |]; simpl; try reflexivity;
    try apply Z.eqb_sym; apply String.eqb_sym.
Qed.

Lemma atom_eqb_refl (a : pyval) : hashable a = true -> atom_eqb a a = true.
Proof.
  destruct a as [|[]| | | |]; simpl; try discriminate; intros _;
    try reflexivity; try apply Z.eqb_refl; apply String.eqb_refl.
Qed.

Lemma distinct_snoc (acc : list pyval) (x : pyval) :
  distinct acc -> existsb (atom_eqb x) acc = false -> distinct (acc ++ [x]).
Proof.
  unfold distinct. induction 1 as [|a l Ha Hl IH]; simpl; intros E.
  - constructor; constructor.
  - apply orb_false_iff in E. destruct E as [Ea El]. constructor.
    + apply Forall_app. split; [assumption|].
      constructor; [|constructor]. now rewrite atom_eqb_sym.
    + now apply IH.
Qed.

Lemma set_add_all_spec (items : list pyval) :
  forall acc s,
    set_add_all items acc = Ok s ->
    (distinct acc -> distinct s) /\
    (forall y, In y s -> In y acc \/ In y items) /\
    (forall x, In x acc -> In x s) /\
    (forall x, In x items -> exists y, In y s /\ atom_eqb x y = true).
Proof.
  induction items as [|x rest IH]; intros acc s; simpl.
  - intros H. inversion H; subst. repeat split; auto. intros x [].
  - destruct (hashable x) eqn:Hx; [|discriminate].
    intros H. apply IH in H. destruct H as (D & I & K & C).
    destruct (existsb (atom_eqb x) acc) eqn:E.
    + repeat split; auto.
      * intros y Hy. destruct (I y Hy); auto.
      * intros z [<-|Hz]; [|auto].
        apply existsb_exists in E. destruct E as (y & Hy & Ey).
        exists y. auto.
    + repeat split.
      * intros Dacc. apply D. now apply distinct_snoc.
      * intros y Hy. destruct (I y Hy) as [Hin|Hin]; auto.
        apply in_app_or in Hin. destruct Hin as [Hin|[<-|[]]]; auto.
      * intros z Hz. apply K. apply in_or_app. auto.
      * intros z [<-|Hz]; [|auto].
        exists x. split; [|now apply atom_eqb_refl].
        apply K. apply in_or_app. right. now left.
Qed.

(** X3.  The tags of a parsed post are those of the mapping taken as a set,
    line 75: no two of them are equal, each is one of the mapping's tags,
    and each of the mapping's tags equals one of them. *)
Theorem post_tags_are_a_set (b : TumblrBlog) (_post _post' : dict)
    (p : TumblrPost) (items : list pyval) :
  TumblrPost___init__ b _post = (_post', Ok p) ->
  py_iter (dict_get _post "tags" (PList [])) = Ok items ->
  distinct (tags p) /\
  (forall y, In y (tags p) -> In y items) /\
  (forall x, In x items -> exists y, In y (tags p) /\ atom_eqb x y = true).
Proof.
  unfold TumblrPost___init__. intros H I. injection H as E P. subst _post'.
  revert P. unfold TumblrPost__parse_post.
  destruct (dict_getitem _post "id") as [i|]; simpl; try discriminate.
  destruct (dict_getitem _post "type") as [t|]; simpl; try discriminate.
  match goal with |- bind ?c _ = _ -> _ => destruct c as [u|e] end;
    simpl; try discriminate.
  unfold py_set. rewrite I. simpl.
  destruct (set_add_all items []) as [tg|e] eqn:S; simpl; try discriminate.
  destruct (dict_getitem _post "date") as [d|]; simpl; try discriminate.
  intros H. inversion H; subst; simpl.
  apply set_add_all_spec in S. destruct S as (D & In1 & _ & In2).
  repeat split.
  - apply D. constructor.
  - intros y Hy. destruct (In1 y Hy) as [[]|]; assumption.
  - assumption.
Qed.

Lemma post_tags_are_a_set_witness :
  exists p,
    TumblrPost___init__ example_blog text_post = (text_post, Ok p) /\
    tags p = [PStr "a"; PStr "b"; PInt 1] /\ distinct (tags p).
Proof.
  eexists. split; [reflexivity|]. split; [reflexivity|].
  exact (proj1 (post_tags_are_a_set example_blog text_post _ _ _
                  eq_refl eq_refl)).
Defined.

(** X4.  Which exception the base parse raises, lines 72-77: a mapping
    without 'id' raises [KeyError] for 'id' whatever else it holds; with
    'id' and without 'type', for 'type'; a 'tags' value that cannot be made
    a set is reported before a missing 'date'; and with everything else in
    order a missing 'date' raises [KeyError] for 'date'. *)
Theorem post_parse_first_error (b : TumblrBlog) (_post : dict) :
  (dict_find "id" _post = None ->
   TumblrPost___init__ b _post = (_post, Raise (KeyError "id"))) /\
  (dict_find "id" _post <> None -> dict_find "type" _post = None ->
   TumblrPost___init__ b _post = (_post, Raise (KeyError "type"))) /\
  (forall e,
      dict_find "id" _post <> None -> dict_find "type" _post <> None ->
      dict_find "post_url" _post = None ->
      py_set (dict_get _post "tags" (PList [])) = Raise e ->
      TumblrPost___init__ b _post = (_post, Raise e)) /\
  (dict_find "id" _post <> None -> dict_find "type" _post <> None ->
   optional_okb _post = true -> dict_find "date" _post = None ->
   TumblrPost___init__ b _post = (_post, Raise (KeyError "date"))).
Proof.
  unfold TumblrPost___init__, TumblrPost__parse_post, dict_getitem.
  repeat split.
  - now intros ->.
  - intros I T. destruct (dict_find "id" _post); [|congruence].
    now rewrite T.
  - intros e I T U S.
    destruct (dict_find "id" _post); [|congruence].
    destruct (dict_find "type" _post); [|congruence].
    unfold dict_contains. rewrite U. simpl. now rewrite S.
  - intros I T O D.
    destruct (post_url_ok _post O) as [u Hu].
    destruct (py_set_ok _post O) as [tg Htg].
    unfold dict_getitem in Hu. rewrite Hu, Htg.
    destruct (dict_find "id" _post); [|congruence].
    destruct (dict_find "type" _post); [|congruence].
    now rewrite D.
Qed.

Lemma post_parse_first_error_witness :
  TumblrPost___init__ example_blog [("type", PStr "text")]
  = ([("type", PStr "text")], Raise (KeyError "id")) /\
  TumblrPost___init__ example_blog [("id", PInt 1); ("date", PStr "d")]
  = ([("id", PInt 1); ("date", PStr "d")], Raise (KeyError "type")) /\
  TumblrPost___init__ example_blog
    [("id", PInt 1); ("type", PStr "text"); ("tags", PInt 5)]
  = ([("id", PInt 1); ("type", PStr "text"); ("tags", PInt 5)],
     Raise (TypeError "object is not iterable")) /\
  TumblrPost___init__ example_blog [("id", PInt 1); ("type", PStr "text")]
  = ([("id", PInt 1); ("type", PStr "text")], Raise (KeyError "date")).
Proof.
  split; [|split; [|split]].
  - apply (proj1 (post_parse_first_error example_blog [("type", PStr "text")])).
    reflexivity.
  - apply (proj1 (proj2 (post_parse_first_error example_blog
                           [("id", PInt 1); ("date", PStr "d")])));
      [simpl; discriminate | reflexivity].
  - apply (proj1 (proj2 (proj2 (post_parse_first_error example_blog
             [("id", PInt 1); ("type", PStr "text"); ("tags", PInt 5)]))));
      simpl; try discriminate; reflexivity.
  - apply (proj2 (proj2 (proj2 (post_parse_first_error example_blog
             [("id", PInt 1); ("type", PStr "text")]))));
      simpl; try discriminate; reflexivity.
Defined.

(** ** Further properties of the photo-set parse *)

(** X5.  Constructing a photo from a size entry, lines 129-140 and
    183-194: without a 'url' key it raises [KeyError] for 'url'; on anything
    but a dict it raises [TypeError]; with a string url it returns a photo
    of type 'photos' that keeps the entry, whose width and height are the
    entry's or [None], and whose page number is the entry's or [False]. *)
Theorem photo_construction (data : pyval) :
  (forall d, data = PDict d -> dict_find "url" d = None ->
             TumblrPhoto___init__ data = Raise (KeyError "url")) /\
  ((forall d, data <> PDict d) ->
   exists msg, TumblrPhoto___init__ data = Raise (TypeError msg)) /\
  (forall d u, data = PDict d -> dict_find "url" d = Some (PStr u) ->
               TumblrPhoto___init__ data
               = Ok (mkPhoto (mkFile d "photos" (mkURL u))
                       (dict_get d "width" PNone)
                       (dict_get d "height" PNone)
                       (dict_get d "page_no" (PBool false)))).
Proof.
  unfold TumblrPhoto___init__, TumblrFile___init__. repeat split.
  - intros d -> F. simpl. unfold dict_getitem. now rewrite F.
  - intros H. destruct data; simpl; eauto. now destruct (H d).
  - intros d u -> F. simpl. unfold dict_getitem. now rewrite F.
Qed.

Lemma photo_construction_witness :
  TumblrPhoto___init__ (PDict [("width", PInt 5)]) = Raise (KeyError "url") /\
  (exists msg, TumblrPhoto___init__ (PStr "http://media/a.jpg")
               = Raise (TypeError msg)) /\
  TumblrPhoto___init__ (PDict [("url", PStr "http://media/a.jpg")])
  = Ok (mkPhoto (mkFile [("url", PStr "http://media/a.jpg")] "photos"
                   (mkURL "http://media/a.jpg"))
          PNone PNone (PBool false)).
Proof.
  split; [|split].
  - exact (proj1 (photo_construction (PDict [("width", PInt 5)]))
             [("width", PInt 5)] eq_refl eq_refl).
  - apply (proj1 (proj2 (photo_construction (PStr "http://media/a.jpg")))).
    discriminate.
  - exact (proj2 (proj2 (photo_construction
                           (PDict [("url", PStr "http://media/a.jpg")])))
             [("url", PStr "http://media/a.jpg")] "http://media/a.jpg"
             eq_refl eq_refl).
Defined.

(** X6.  What line 113 selects.  A record whose 'original_size' is there
    and not empty selects it, whatever its alternate sizes are.  Otherwise
    (no such key, or [None] or an empty dict under it) nothing is selected:
    without an 'alt_sizes' key the step raises [KeyError] for 'alt_sizes',
    with an empty list [ValueError], with a list of one entry or more
    [TypeError]; and a record that is not a dict raises [AttributeError]. *)
Theorem best_size_selection (photo : pyval) :
  (forall d, photo = PDict d ->
             py_bool (dict_get d "original_size" PNone) = true ->
             select_best_size photo
             = Ok (OriginalSize, dict_get d "original_size" PNone)) /\
  (forall d, photo = PDict d ->
             py_bool (dict_get d "original_size" PNone) = false ->
             (dict_find "alt_sizes" d = None ->
              select_best_size photo = Raise (KeyError "alt_sizes")) /\
             (dict_find "alt_sizes" d = Some (PList []) ->
              select_best_size photo
              = Raise (ValueError "max() arg is an empty sequence")) /\
             (forall size sizes,
                 dict_find "alt_sizes" d = Some (PList (size :: sizes)) ->
                 select_best_size photo
                 = Raise (TypeError "object is not callable"))) /\
  ((forall d, photo <> PDict d) ->
   exists msg, select_best_size photo = Raise (AttributeError msg)).
Proof.
  unfold select_best_size. split; [|split].
  - intros d -> T. simpl. now rewrite T.
  - intros d -> T. simpl. rewrite T. unfold dict_getitem. repeat split.
    + now intros ->.
    + now intros ->.
    + now intros size sizes ->.
  - intros H. destruct photo; simpl; eauto. now destruct (H d).
Qed.

Lemma best_size_selection_witness :
  select_best_size
    (PDict [("alt_sizes", PList alt_sizes_100_400_250);
            ("original_size", size_entry "http://media/o.jpg" 50)])
  = Ok (OriginalSize, size_entry "http://media/o.jpg" 50) /\
  select_best_size (PDict [("original_size", PDict [])])
  = Raise (KeyError "alt_sizes") /\
  select_best_size (PDict [("alt_sizes", PList [])])
  = Raise (ValueError "max() arg is an empty sequence") /\
  select_best_size (PDict [("alt_sizes", PList alt_sizes_100_400_250)])
  = Raise (TypeError "object is not callable") /\
  (exists msg, select_best_size (PStr "photo") = Raise (AttributeError msg)).
Proof.
  split; [|split; [|split; [|split]]].
  - exact (proj1 (best_size_selection
                    (PDict [("alt_sizes", PList alt_sizes_100_400_250);
                            ("original_size",
                             size_entry "http://media/o.jpg" 50)]))
             [("alt_sizes", PList alt_sizes_100_400_250);
              ("original_size", size_entry "http://media/o.jpg" 50)]
             eq_refl eq_refl).
  - exact (proj1 (proj1 (proj2 (best_size_selection
                                  (PDict [("original_size", PDict [])])))
                    [("original_size", PDict [])] eq_refl eq_refl) eq_refl).
  - exact (proj1 (proj2 (proj1 (proj2 (best_size_selection
                                         (PDict [("alt_sizes", PList [])])))
                           [("alt_sizes", PList [])] eq_refl eq_refl))
             eq_refl).
  - exact (proj2 (proj2 (proj1 (proj2
             (best_size_selection
                (PDict [("alt_sizes", PList alt_sizes_100_400_250)])))
             [("alt_sizes", PList alt_sizes_100_400_250)] eq_refl eq_refl))
             _ _ eq_refl).
  - apply (proj2 (proj2 (best_size_selection (PStr "photo")))). discriminate.
Defined.

Lemma dict_setitem_same_value (d : dict) (k : string) (v : pyval) :
  dict_find k d = Some v -> dict_setitem d k v = d.
Proof.
  induction d as [|[k' v'] rest IH]; simpl; [discriminate|].
  destruct (String.eqb k k') eqn:E.
  - intros H. now inversion H.
  - intros H. now rewrite IH.
Qed.

Lemma dict_setitem_twice (d : dict) (k : string) (v v' : pyval) :
  dict_setitem (dict_setitem d k v) k v' = dict_setitem d k v'.
Proof.
  induction d as [|[k0 v0] rest IH]; simpl.
  - now rewrite String.eqb_refl.
  - destruct (String.eqb k k0) eqn:E; simpl; rewrite E; [reflexivity|].
    now rewrite IH.
Qed.

(** X7.  A response without photos, lines 109-115: when the mandatory keys
    are there and the optional fields usable, and 'photos' is missing or
    empty (an empty list, dict or string), the constructor returns a photo
    set without files and leaves the mapping as it was. *)
Theorem photoset_without_photos (b : TumblrBlog) (_post : dict) :
  mandatory_okb _post = true -> optional_okb _post = true ->
  py_len (dict_get _post "photos" (PList [])) = Ok 0 ->
  exists ps,
    TumblrPhotoSet___init__ b _post = (_post, Ok ps) /\
    files (post ps) = [].
Proof.
  intros M O L.
  destruct (post_parse_ok _post (TumblrPost_defaults b) M O) as [base Hb].
  pose proof (post_parse_fields _ _ _ Hb) as (_ & _ & _ & F & _).
  simpl in F.
  unfold TumblrPhotoSet___init__, se_bind, se_ret, TumblrPhotoSet__parse_post.
  simpl. rewrite Hb. revert L. unfold dict_get.
  destruct (dict_find "photos" _post) as [v|] eqn:P.
  - destruct v as [| | |s|l|d]; simpl; try discriminate.
    + destruct s; simpl; [|discriminate]. intros _.
      eexists. split; [reflexivity|]. exact F.
    + destruct l; simpl; [|discriminate]. intros _.
      rewrite (dict_setitem_same_value _ _ _ P).
      eexists. split; [reflexivity|]. exact F.
    + destruct d; simpl; [|discriminate]. intros _.
      eexists. split; [reflexivity|]. exact F.
  - simpl. intros _. eexists. split; [reflexivity|]. exact F.
Qed.

Lemma photoset_without_photos_witness :
  exists ps,
    TumblrPhotoSet___init__ example_blog text_post = (text_post, Ok ps) /\
    files (post ps) = [].
Proof.
  apply (photoset_without_photos example_blog text_post); reflexivity.
Defined.

Lemma parse_photos_stops (is_photoset : bool) (bad : pyval)
    (later : list pyval) (e : exn) (before : list pyval) :
  select_best_size bad = Raise e ->
  forall (page : nat) (acc : list TumblrPhoto),
    forallb photo_okb before = true ->
    exists before',
      parse_photos is_photoset page acc (before ++ bad :: later)%list
      = ((before' ++ bad :: later)%list, Raise e) /\
      Forall2 page_bound before before'.
Proof.
  intros Hbad. induction before as [|photo rest IH]; intros page acc; simpl.
  - intros _. exists []. unfold parse_photo. rewrite Hbad. simpl.
    split; [reflexivity | constructor].
  - intros H. apply andb_true_iff in H. destruct H as [Hp Hr].
    destruct (parse_photo_ok is_photoset page photo Hp) as (photo' & f & P).
    rewrite P.
    destruct (IH (S page) (acc ++ [f])%list Hr) as (rest' & -> & Hrest).
    exists (photo' :: rest'). split; [reflexivity|].
    constructor; [|assumption]. eapply parse_photo_bound; eauto.
Qed.

(** X8.  A construction that fails half way has already written to the
    response, lines 112-115: when the records before a record without a
    usable size all carry an original size, the constructor raises that
    record's exception, and the mapping is left with the page number bound
    in every record before it, the failing record and the later ones being
    as they were. *)
Theorem failed_parse_keeps_earlier_pages (b : TumblrBlog) (_post : dict)
    (before later : list pyval) (bad : pyval) (e : exn) :
  mandatory_okb _post = true -> optional_okb _post = true ->
  dict_find "photos" _post = Some (PList (before ++ bad :: later)%list) ->
  forallb photo_okb before = true ->
  select_best_size bad = Raise e ->
  exists before',
    TumblrPhotoSet___init__ b _post
    = (dict_setitem _post "photos" (PList (before' ++ bad :: later)%list),
       Raise e) /\
    Forall2 page_bound before before'.
Proof.
  intros M O P Hb Hbad.
  destruct (post_parse_ok _post (TumblrPost_defaults b) M O) as [base Hbase].
  unfold TumblrPhotoSet___init__, se_bind, se_ret, TumblrPhotoSet__parse_post.
  simpl. rewrite Hbase. unfold dict_get. rewrite P. simpl.
  destruct (parse_photos_stops
              (1 <? List.length (before ++ bad :: later)%list)%nat
              bad later e before Hbad 1 (files base) Hb)
    as (before' & -> & HF).
  exists before'. split; [reflexivity | assumption].
Qed.

Lemma failed_parse_keeps_earlier_pages_witness :
  exists before',
    TumblrPhotoSet___init__ example_blog broken_third_post
    = (dict_setitem broken_third_post "photos"
         (PList (before'
                 ++ PDict [("caption", PStr "no sizes")]
                 :: [PDict [("original_size",
                             size_entry "http://media/k4.jpg" 640)]])%list),
       Raise (KeyError "alt_sizes")) /\
    Forall2 page_bound
      [PDict [("original_size", size_entry "http://media/k1.jpg" 640)];
       PDict [("original_size", size_entry "http://media/k2.jpg" 640)]]
      before'.
Proof.
  apply (failed_parse_keeps_earlier_pages example_blog broken_third_post
           [PDict [("original_size", size_entry "http://media/k1.jpg" 640)];
            PDict [("original_size", size_entry "http://media/k2.jpg" 640)]]
           [PDict [("original_size", size_entry "http://media/k4.jpg" 640)]]
           (PDict [("caption", PStr "no sizes")]) (KeyError "alt_sizes"));
    reflexivity.
Defined.

(** *** Constructing again from the same mapping *)

Lemma py_bool_setitem (d : dict) (k : string) (v : pyval) :
  py_bool (PDict (dict_setitem d k v)) = true.
Proof.
  destruct d as [|[k0 v0] rest]; cbn [dict_setitem py_bool]; [reflexivity|].
  now destruct (String.eqb k k0).
Qed.

Lemma parse_photo_again (is_photoset : bool) (page : nat)
    (photo photo' : pyval) (r : result TumblrPhoto) :
  parse_photo is_photoset page photo = (photo', r) ->
  parse_photo is_photoset page photo' = (photo', r).
Proof.
  unfold parse_photo.
  destruct (select_best_size photo) as [[ref best]|e] eqn:S.
  - pose proof (select_best_size_ok _ _ _ S) as (-> & T & d & -> & F).
    destruct best as [| | | | |size]; simpl;
      try (intros H; inversion H; subst; rewrite S; reflexivity).
    intros H. inversion H; subst. clear H.
    rewrite (select_best_size_original
               (dict_setitem d "original_size"
                  (PDict (dict_setitem size "page_no"
                            (if is_photoset then PInt (Z.of_nat page)
                             else PBool false))))
               (PDict (dict_setitem size "page_no"
                         (if is_photoset then PInt (Z.of_nat page)
                          else PBool false)))).
    + simpl. now rewrite !dict_setitem_twice.
    + apply dict_find_setitem_same.
    + apply py_bool_setitem.
  - intros H. inversion H; subst. now rewrite S.
Qed.

Lemma parse_photos_again (is_photoset : bool) (photos : list pyval) :
  forall (page : nat) (acc : list TumblrPhoto) (photos' : list pyval)
         (r : result (list TumblrPhoto)),
    parse_photos is_photoset page acc photos = (photos', r) ->
    parse_photos is_photoset page acc photos' = (photos', r).
Proof.
  induction photos as [|photo rest IH]; intros page acc photos' r; simpl.
  - intros H. inversion H; subst. reflexivity.
  - destruct (parse_photo is_photoset page photo) as [photo1 [f|e]] eqn:P.
    + destruct (parse_photos is_photoset (S page) (acc ++ [f]) rest)
        as [rest' r'] eqn:R.
      intros H. inversion H; subst. simpl.
      rewrite (parse_photo_again _ _ _ _ _ P).
      now rewrite (IH _ _ _ _ R).
    + intros H. inversion H; subst. simpl.
      now rewrite (parse_photo_again _ _ _ _ _ P).
Qed.

Lemma parse_photos_length (is_photoset : bool) (photos : list pyval)
    (page : nat) (acc : list TumblrPhoto) (photos' : list pyval)
    (r : result (list TumblrPhoto)) :
  parse_photos is_photoset page acc photos = (photos', r) ->
  List.length photos' = List.length photos.
Proof.
  intros H. apply parse_photos_frame in H. symmetry.
  eapply Forall2_length; eauto.
Qed.

(** The base parse and the title read keys other than 'photos'. *)
Lemma post_parse_other_keys (d d' : dict) (self : TumblrPost) :
  (forall k, k <> "photos" -> dict_find k d' = dict_find k d) ->
  TumblrPost__parse_post d' self = TumblrPost__parse_post d self /\
  resolve_title d' = resolve_title d.
Proof.
  intros H.
  unfold TumblrPost__parse_post, resolve_title, dict_getitem, dict_contains,
    dict_get.
  rewrite (H "id"), (H "type"), (H "post_url"), (H "tags"), (H "note_count"),
    (H "date"), (H "caption"), (H "title") by discriminate.
  split; reflexivity.
Qed.

Lemma photoset_parse_again (self : TumblrPhotoSet) (_post _post' : dict)
    (r : result TumblrPhotoSet) :
  TumblrPhotoSet__parse_post self _post = (_post', r) ->
  TumblrPhotoSet__parse_post self _post' = (_post', r).
Proof.
  unfold TumblrPhotoSet__parse_post.
  destruct (TumblrPost__parse_post _post (post self)) as [base|e] eqn:B.
  2:{ intros H. inversion H; subst. now rewrite B. }
  unfold dict_get at 1 2.
  destruct (dict_find "photos" _post) as [v|] eqn:F.
  - destruct v as [| | |s|l|d]; simpl;
      try (intros H; inversion H; subst; rewrite B; unfold dict_get;
           rewrite F; reflexivity).
    + destruct (parse_photos _ _ _ (chars s)) as [items' r'] eqn:P.
      intros H. inversion H; subst. rewrite B. unfold dict_get. rewrite F.
      simpl. now rewrite P.
    + destruct (parse_photos _ _ _ l) as [items' r'] eqn:P.
      intros H. inversion H; subst. clear H.
      destruct (post_parse_other_keys _post
                  (dict_setitem _post "photos" (PList items')) (post self))
        as [-> ->].
      { intros k Hk. apply dict_find_setitem_other. congruence. }
      rewrite B. unfold dict_get. rewrite dict_find_setitem_same. simpl.
      rewrite (parse_photos_length _ _ _ _ _ _ P).
      rewrite (parse_photos_again _ _ _ _ _ _ P).
      now rewrite dict_setitem_twice.
    + destruct (parse_photos _ _ _ (map _ d)) as [items' r'] eqn:P.
      intros H. inversion H; subst. rewrite B. unfold dict_get. rewrite F.
      simpl. now rewrite P.
  - simpl. intros H. inversion H; subst. rewrite B. unfold dict_get.
    rewrite F. reflexivity.
Qed.

(** X9.  Constructing a photo set a second time, from the mapping the
    first construction left, gives the same outcome (the same photo set, or
    the same exception) and writes nothing more, lines 91-115: the page
    numbers written once are written again with the same values. *)
Theorem photoset_construction_repeats (b : TumblrBlog) (_post : dict) :
  TumblrPhotoSet___init__ b (fst (TumblrPhotoSet___init__ b _post))
  = TumblrPhotoSet___init__ b _post.
Proof.
  unfold TumblrPhotoSet___init__, se_bind, se_ret.
  destruct (TumblrPhotoSet__parse_post
              (mkPhotoSet (TumblrPost_defaults b) PNone) _post)
    as [p' r] eqn:P.
  apply photoset_parse_again in P.
  destruct r as [ps|e]; simpl; now rewrite P.
Qed.

(** ** Printing *)

Lemma photoset_parse_base (self self' : TumblrPhotoSet) (_post _post' : dict) :
  TumblrPhotoSet__parse_post self _post = (_post', Ok self') ->
  exists base,
    TumblrPost__parse_post _post (post self) = Ok base /\
    post self' = with_files base (files (post self')).
Proof.
  unfold TumblrPhotoSet__parse_post.
  destruct (TumblrPost__parse_post _post (post self)) as [base|e];
    try discriminate.
  destruct (py_len _) as [n|e]; try discriminate.
  destruct (py_iter _) as [items|e]; try discriminate.
  destruct (parse_photos _ _ _ _) as [items' [fs|e]]; simpl; try discriminate.
  intros H. inversion H; subst. simpl. eauto.
Qed.

Lemma post_parse_url (_post : dict) (self p : TumblrPost) :
  TumblrPost__parse_post _post self = Ok p ->
  (dict_find "post_url" _post = None -> post_url p = None) /\
  (forall s, dict_find "post_url" _post = Some (PStr s) ->
             post_url p = Some (mkURL s)).
Proof.
  unfold TumblrPost__parse_post, dict_contains, dict_getitem.
  destruct (dict_find "id" _post) as [i|]; simpl; try discriminate.
  destruct (dict_find "type" _post) as [t|]; simpl; try discriminate.
  destruct (dict_find "post_url" _post) as [v|] eqn:U; simpl.
  - destruct (URL_new v) as [u|e] eqn:N; simpl; try discriminate.
    destruct (py_set _) as [tg|e]; simpl; try discriminate.
    destruct (dict_find "date" _post) as [d|]; simpl; try discriminate.
    intros H. inversion H; subst; simpl. split; [discriminate|].
    intros s Hs. injection Hs as ->. simpl in N. injection N as <-.
    reflexivity.
  - destruct (py_set _) as [tg|e]; simpl; try discriminate.
    destruct (dict_find "date" _post) as [d|]; simpl; try discriminate.
    intros H. inversion H; subst; simpl. split; [reflexivity|discriminate].
Qed.

Lemma photoset_init_url (b : TumblrBlog) (_post _post' : dict)
    (ps : TumblrPhotoSet) :
  TumblrPhotoSet___init__ b _post = (_post', Ok ps) ->
  (dict_find "post_url" _post = None -> post_url (post ps) = None) /\
  (forall s, dict_find "post_url" _post = Some (PStr s) ->
             post_url (post ps) = Some (mkURL s)).
Proof.
  intros H. apply photoset_init_inv in H. destruct H as (_ & self' & H & ->).
  apply photoset_parse_base in H. destruct H as (base & B & ->).
  apply post_parse_url in B. exact B.
Qed.

(** X10.  Printing a photo set with [repr], lines 117-119, takes the first
    line of the title, so it returns only for a title that is a string; for
    every photo set the constructor returns, whose title line 100 has set
    to [None], it raises [AttributeError]. *)
Theorem photoset_repr (ps : TumblrPhotoSet) :
  (forall s, TumblrPhotoSet___repr__ ps = Ok s -> exists t, title ps = PStr t) /\
  ((forall t, title ps <> PStr t) ->
   exists msg, TumblrPhotoSet___repr__ ps = Raise (AttributeError msg)) /\
  (forall b _post _post',
      TumblrPhotoSet___init__ b _post = (_post', Ok ps) ->
      exists msg, TumblrPhotoSet___repr__ ps = Raise (AttributeError msg)).
Proof.
  assert ((forall t, title ps <> PStr t) ->
          exists msg, TumblrPhotoSet___repr__ ps = Raise (AttributeError msg))
    as A.
  { intros H. unfold TumblrPhotoSet___repr__.
    destruct (title ps) as [| | |t| |]; simpl; eauto. now destruct (H t). }
  split; [|split].
  - unfold TumblrPhotoSet___repr__. intros s.
    destruct (title ps); simpl; try discriminate. eauto.
  - exact A.
  - intros b _post _post' H. apply photoset_init_inv in H.
    destruct H as [T _]. apply A. rewrite T. discriminate.
Qed.

Lemma photoset_repr_witness :
  exists ps,
    built trip_post = Some ps /\
    exists msg, TumblrPhotoSet___repr__ ps = Raise (AttributeError msg).
Proof.
  eexists. split; [reflexivity|].
  eapply (proj2 (proj2 (photoset_repr _)) example_blog trip_post).
  reflexivity.
Defined.

(** X11.  Printing with [str], lines 83-84 and 121-122.  A post parsed
    from a mapping without 'post_url' prints as the empty string, whatever
    the url library answers.  A photo set built from such a mapping raises
    [AttributeError] instead; built from a mapping with a string under
    'post_url' it prints as whatever the url library gives for the url
    object made of that string. *)
Theorem str_of_containers (as_string : URL -> string) (b : TumblrBlog)
    (_post : dict) :
  (forall URL_bool _post' p,
      TumblrPost___init__ b _post = (_post', Ok p) ->
      dict_find "post_url" _post = None ->
      TumblrPost___str__ as_string URL_bool p = "") /\
  (forall _post' ps,
      TumblrPhotoSet___init__ b _post = (_post', Ok ps) ->
      (dict_find "post_url" _post = None ->
       exists msg,
         TumblrPhotoSet___str__ as_string ps = Raise (AttributeError msg)) /\
      (forall s, dict_find "post_url" _post = Some (PStr s) ->
                 TumblrPhotoSet___str__ as_string ps
                 = Ok (as_string (mkURL s)))).
Proof.
  split.
  - intros URL_bool _post' p H U. unfold TumblrPost___init__ in H.
    injection H as _ H. apply post_parse_url in H. destruct H as [H _].
    unfold TumblrPost___str__. now rewrite (H U).
  - intros _post' ps H. apply photoset_init_url in H. destruct H as [N S].
    unfold TumblrPhotoSet___str__. split.
    + intros U. rewrite (N U). eauto.
    + intros s U. now rewrite (S s U).
Qed.

Lemma str_of_containers_witness :
  (exists p,
      TumblrPost___init__ example_blog trip_post = (trip_post, Ok p) /\
      TumblrPost___str__ as_written (fun _ => true) p = "") /\
  (exists ps,
      built trip_post = Some ps /\
      exists msg,
        TumblrPhotoSet___str__ as_written ps = Raise (AttributeError msg)) /\
  (exists ps,
      built text_post = Some ps /\
      TumblrPhotoSet___str__ as_written ps
      = Ok (as_written (mkURL "http://example.tumblr.com/post/12"))).
Proof.
  split; [|split].
  - eexists. split; [reflexivity|].
    exact (proj1 (str_of_containers as_written example_blog trip_post) _ _ _
             eq_refl eq_refl).
  - eexists. split; [reflexivity|].
    exact (proj1 (proj2 (str_of_containers as_written example_blog trip_post)
                    _ _ eq_refl) eq_refl).
  - eexists. split; [reflexivity|].
    exact (proj2 (proj2 (str_of_containers as_written example_blog text_post)
                    _ _ eq_refl) _ eq_refl).
Defined.

(** ** Downloading *)

(** X12.  [TumblrFile.download], lines 142-151, resolves the path before
    it hands anything to the transfer; as the path of a photo cannot be
    resolved, a download of a photo never reaches the transfer, whatever
    the transfer, the sanitizer, the context and the options are: it raises
    the [TypeError] of line 208 for a photo of a photo set, [AssertionError]
    for a photo of another post, and leaves the options as they were. *)
Theorem download_never_transfers (sanitize : string -> string)
    (as_string : URL -> string)
    (transfer : string -> string -> dict -> result unit)
    (self : TumblrPhoto) (context : Context) (kwargs : dict) :
  (forall ps,
      TumblrFile_download sanitize as_string transfer (PhotoSetContainer ps) self
        context kwargs
      = (kwargs, Raise missing_argument)) /\
  (forall p,
      TumblrFile_download sanitize as_string transfer (PostContainer p) self
        context kwargs
      = (kwargs, Raise AssertionError)).
Proof. split; reflexivity. Qed.

(** ** Save paths as strings *)

Lemma append_nil_r (s : string) : s ++ "" = s.
Proof. induction s; simpl; congruence. Qed.

Lemma append_assoc (s t u : string) : (s ++ t) ++ u = s ++ (t ++ u).
Proof. induction s; simpl; congruence. Qed.

Lemma append_cons_nonempty (s t : string) (c : ascii) :
  s ++ String c t <> "".
Proof. destruct s; simpl; discriminate. Qed.

Lemma concat_slash_snoc (l : list string) (x : string) :
  l <> [] ->
  String.concat "/" (l ++ [x]) = String.concat "/" l ++ "/" ++ x.
Proof.
  induction l as [|a l IH]; [congruence|]. intros _.
  destruct l as [|a' l'].
  - reflexivity.
  - change (String.concat "/" ((a :: a' :: l') ++ [x]))
      with (a ++ "/" ++ String.concat "/" ((a' :: l') ++ [x])).
    rewrite IH by discriminate.
    change (String.concat "/" (a :: a' :: l'))
      with (a ++ "/" ++ String.concat "/" (a' :: l')).
    now rewrite !append_assoc.
Qed.

Lemma Path_str_named (p : Path) :
  named p -> Path_str p = root p ++ String.concat "/" (parts p).
Proof.
  intros [_ H]. unfold Path_str.
  destruct (root p ++ String.concat "/" (parts p)); congruence.
Qed.

Lemma joinpath_plain (p : Path) (seg : string) :
  plain seg -> joinpath p seg = mkPath (root p) (parts p ++ [seg]).
Proof. intros [R C]. unfold joinpath. now rewrite R, C. Qed.

Lemma named_joinpath (p : Path) (seg : string) :
  named p -> plain seg -> named (joinpath p seg).
Proof.
  intros [Hp _] Hs. rewrite (joinpath_plain p seg Hs). split; simpl.
  - destruct (parts p); discriminate.
  - rewrite concat_slash_snoc by assumption.
    rewrite <- append_assoc. apply append_cons_nonempty.
Qed.

(** Joining a plain segment to a path that has a component appends a slash
    and the segment. *)
Lemma Path_str_joinpath (p : Path) (seg : string) :
  named p -> plain seg ->
  Path_str (joinpath p seg) = Path_str p ++ "/" ++ seg.
Proof.
  intros Hp Hs. rewrite (Path_str_named _ (named_joinpath p seg Hp Hs)).
  rewrite (Path_str_named p Hp). rewrite (joinpath_plain p seg Hs). simpl.
  destruct Hp as [Hp _]. rewrite concat_slash_snoc by assumption.
  now rewrite append_assoc.
Qed.

Lemma plain_photos : plain "photos".
Proof. split; reflexivity. Qed.

(** X13.  The base rule [TumblrFile.filepath], lines 153-178.  Called with
    a context and a side channel it never fails and returns the path of the
    save root, joined with the sanitized blog name when categorizing by
    user, then joined with 'photos' when categorizing by post type; the side
    channel is not read.  When the save root is a path of one component or
    more that prints as it is written, and the sanitized blog name is a
    plain name, the path prints as the root, then '/' and the name, then
    '/photos'.  Called with any other number of arguments it raises
    [TypeError]. *)
Theorem base_directory (sanitize : string -> string) (c : container) :
  (forall context request_data,
      exists p,
        TumblrFile_filepath sanitize c
          [ArgContext context; ArgValue request_data] = Ok p /\
        p = basedir_of sanitize c context /\
        (named (Path_new (SavePath context)) ->
         Path_str (Path_new (SavePath context)) = SavePath context ->
         (User context = true ->
          plain (sanitize (name (blog (container_post c))))) ->
         Path_str p
         = SavePath context
           ++ (if User context
               then "/" ++ sanitize (name (blog (container_post c))) else "")
           ++ (if PostType context then "/photos" else ""))) /\
  (forall args, List.length args <> 2 ->
                exists msg, TumblrFile_filepath sanitize c args
                            = Raise (TypeError msg)).
Proof.
  split.
  - intros context request_data. eexists. split; [reflexivity|].
    split; [reflexivity|].
    intros N R P. unfold basedir_of.
    destruct (User context), (PostType context).
    + rewrite Path_str_joinpath;
        [|apply named_joinpath; auto|apply plain_photos].
      rewrite Path_str_joinpath by auto. rewrite R.
      now rewrite !append_assoc.
    + rewrite Path_str_joinpath by auto. rewrite R.
      now rewrite !append_assoc, append_nil_r.
    + rewrite Path_str_joinpath; [|assumption|apply plain_photos].
      now rewrite R.
    + rewrite R. simpl. now rewrite append_nil_r.
  - intros args H. destruct args as [|a [|a' [|a'' rest]]]; simpl in *;
      try (unfold missing_argument; eauto; fail).
    congruence.
Qed.

Lemma base_directory_witness :
  (exists p,
      TumblrFile_filepath keep (PostContainer (TumblrPost_defaults example_blog))
        [ArgContext all_on; ArgValue PNone] = Ok p /\
      Path_str p = "/out/example/photos") /\
  (exists msg,
      TumblrFile_filepath keep (PostContainer (TumblrPost_defaults example_blog))
        [ArgContext all_on] = Raise (TypeError msg)).
Proof.
  split.
  - destruct (proj1 (base_directory keep
                       (PostContainer (TumblrPost_defaults example_blog)))
                all_on PNone) as (p & E & _ & S).
    exists p. split; [exact E|]. apply S.
    + split; simpl; discriminate.
    + reflexivity.
    + intros _. split; reflexivity.
  - apply (proj2 (base_directory keep
                    (PostContainer (TumblrPost_defaults example_blog)))).
    discriminate.
Defined.

(** ** The statements after line 208, when they return *)

Lemma set_progress_ok_eq (k : string) (v : pyval) (d pd : dict) :
  dict_find "progress_data" d = Some (PDict pd) ->
  set_progress k v (PDict d)
  = (PDict (dict_setitem d "progress_data" (PDict (dict_setitem pd k v))),
     Ok tt).
Proof.
  intros F. unfold set_progress. simpl. unfold dict_getitem. now rewrite F.
Qed.

Lemma rest_ok_inv (sanitize : string -> string)
    (as_string : URL -> string) (ps : TumblrPhotoSet)
    (self : TumblrPhoto) (context : Context) (filepath : Path)
    (rd rd' : pyval) (p : string) :
  filepath_rest sanitize as_string ps self context filepath rd = (rd', Ok p) ->
  exists d pd pd' fp1 name,
    rd = PDict d /\ dict_find "progress_data" d = Some (PDict pd) /\
    rd' = PDict (dict_setitem d "progress_data" (PDict pd')) /\
    photoset_segment sanitize ps self context filepath = Ok fp1 /\
    p = Path_str (joinpath fp1 (sanitize name))
        ++ snd (splitext (as_string (url (file self)))) /\
    (py_bool (page_no self) = true ->
     exists pn pt,
       py_str (page_no self) = Ok pn /\ py_str (title ps) = Ok pt /\
       name = "p" ++ pn ++ "_" ++ pt /\
       pd' = dict_setitem (dict_setitem pd "Caption" (title ps))
               "Photoset Page"
               (PStr (pn ++ " / "
                      ++ str_of_nat (List.length (files (post ps)))))) /\
    (py_bool (page_no self) = false ->
     title ps = PStr name /\ pd' = dict_setitem pd "Caption" (title ps)).
Proof.
  unfold filepath_rest, se_bind at 1 2 3, se_lift at 1, se_ret at 1.
  destruct (set_progress "Caption" (title ps) rd) as [s1 [[]|e]] eqn:C;
    [|discriminate].
  destruct (set_progress_cases "Caption" (title ps) rd)
    as [(d & pd & -> & F & E)|(e & E & _)]; rewrite E in C;
    [|discriminate].
  inversion C; subst s1. clear C E.
  destruct (photoset_segment sanitize ps self context filepath) as [fp1|e];
    [|discriminate].
  unfold filename_segment. destruct (py_bool (page_no self)).
  - unfold se_bind, se_lift, se_ret.
    destruct (py_str (page_no self)) as [pn|e]; simpl; [|discriminate].
    destruct (py_str (title ps)) as [pt|e]; simpl; [|discriminate].
    rewrite (set_progress_ok_eq "Photoset Page" _ _
               (dict_setitem pd "Caption" (title ps))
               (dict_find_setitem_same d "progress_data" _)).
    rewrite dict_setitem_twice.
    intros H. inversion H; subst. clear H.
    eexists d, pd, _, fp1, _. repeat split; try reflexivity; try assumption.
    + intros _. eexists pn, pt. repeat split.
    + discriminate.
    + discriminate.
  - unfold se_lift.
    destruct (title ps) as [| | |t| |] eqn:T; simpl; try discriminate.
    intros H. inversion H; subst. clear H.
    eexists d, pd, _, fp1, t. repeat split; try reflexivity; try assumption;
      discriminate.
Qed.

(** X14.  The path the statements of lines 212-227 return from a base
    directory: the string of a path followed by the extension of the
    photo's url as the url library prints it.  The path is a directory
    joined with one sanitized file name; the directory is the base
    directory, joined with the sanitized post id exactly when the photo has
    a page number and the context categorizes by photoset; the file name is
    'p<page>_<title>' for a photo with a page number, and the title for a
    photo without one whose title is a string.  Where the directory has a
    component and the sanitized name is a plain name, the path prints as
    the directory, '/' and the name. *)
Theorem photo_path_shape (sanitize : string -> string)
    (as_string : URL -> string) (ps : TumblrPhotoSet)
    (self : TumblrPhoto) (context : Context) (filepath : Path)
    (rd rd' : pyval) (p : string) :
  filepath_rest sanitize as_string ps self context filepath rd = (rd', Ok p) ->
  exists directory name,
    p = Path_str (joinpath directory (sanitize name))
        ++ snd (splitext (as_string (url (file self)))) /\
    (py_bool (page_no self) && Photosets context = false ->
     directory = filepath) /\
    (py_bool (page_no self) && Photosets context = true ->
     exists i, py_str (id (post ps)) = Ok i /\
               directory = joinpath filepath (sanitize i)) /\
    (py_bool (page_no self) = true ->
     exists pn pt,
       py_str (page_no self) = Ok pn /\ py_str (title ps) = Ok pt /\
       name = "p" ++ pn ++ "_" ++ pt) /\
    (forall t, py_bool (page_no self) = false -> title ps = PStr t ->
               name = t) /\
    (named directory -> plain (sanitize name) ->
     p = Path_str directory ++ "/" ++ sanitize name
         ++ snd (splitext (as_string (url (file self))))).
Proof.
  intros H. apply rest_ok_inv in H.
  destruct H as (d & pd & pd' & fp1 & name & _ & _ & _ & G & -> & Hp & Hn).
  exists fp1, name. split; [reflexivity|].
  unfold photoset_segment in G.
  destruct (py_bool (page_no self) && Photosets context) eqn:B.
  - destruct (py_str (id (post ps))) as [i|e]; simpl in G; [|discriminate].
    inversion G; subst fp1. repeat split.
    + discriminate.
    + intros _. now exists i.
    + intros T. destruct (Hp T) as (pn & pt & ? & ? & ? & _). now exists pn, pt.
    + intros t T Ht. destruct (Hn T) as [E _]. congruence.
    + intros N P. rewrite Path_str_joinpath by assumption.
      now rewrite !append_assoc.
  - inversion G; subst fp1. repeat split.
    + discriminate.
    + intros T. destruct (Hp T) as (pn & pt & ? & ? & ? & _). now exists pn, pt.
    + intros t T Ht. destruct (Hn T) as [E _]. congruence.
    + intros N P. rewrite Path_str_joinpath by assumption.
      now rewrite !append_assoc.
Qed.

Lemma photo_path_shape_witness :
  exists directory name,
    "/out/example/photos/42/p2_Trip.jpg"
    = Path_str directory ++ "/" ++ keep name
      ++ snd (splitext (as_written (url (file trip_page2)))) /\
    directory
    = joinpath (basedir_of keep (PhotoSetContainer trip_set) all_on)
        (keep "42") /\
    name = "p2_Trip".
Proof.
  destruct (photo_path_shape keep as_written trip_set trip_page2 all_on
              (basedir_of keep (PhotoSetContainer trip_set) all_on)
              empty_progress
              (fst (filepath_rest keep as_written trip_set trip_page2 all_on
                      (basedir_of keep (PhotoSetContainer trip_set) all_on)
                      empty_progress))
              "/out/example/photos/42/p2_Trip.jpg" eq_refl)
    as (directory & name & _ & _ & D & N & _ & S).
  exists directory, name.
  destruct (D eq_refl) as (i & I & ->).
  destruct (N eq_refl) as (pn & pt & Hpn & Hpt & ->).
  vm_compute in I, Hpn, Hpt.
  injection I as <-. injection Hpn as <-. injection Hpt as <-.
  split; [|split; reflexivity].
  apply S.
  - split; simpl; discriminate.
  - split; reflexivity.
Defined.

(** X15.  What those statements do to the side channel.  A side channel
    without a 'progress_data' key makes them raise [KeyError] for it and is
    left as it was.  When they return, the side channel was a dict with a
    dict under 'progress_data', and only that dict has changed: 'Caption' is
    the set's title, 'Photoset Page' is '<page> / <number of files>' for a
    photo with a page number and untouched for one without, and every other
    entry is as it was. *)
Theorem progress_annotations (sanitize : string -> string)
    (as_string : URL -> string)
    (ps : TumblrPhotoSet) (self : TumblrPhoto) (context : Context)
    (filepath : Path) (rd : pyval) :
  (forall d, rd = PDict d -> dict_find "progress_data" d = None ->
             filepath_rest sanitize as_string ps self context filepath rd
             = (rd, Raise (KeyError "progress_data"))) /\
  (forall rd' p,
      filepath_rest sanitize as_string ps self context filepath rd = (rd', Ok p) ->
      exists d pd pd',
        rd = PDict d /\ dict_find "progress_data" d = Some (PDict pd) /\
        rd' = PDict (dict_setitem d "progress_data" (PDict pd')) /\
        dict_find "Caption" pd' = Some (title ps) /\
        (forall k, k <> "Caption" -> k <> "Photoset Page" ->
                   dict_find k pd' = dict_find k pd) /\
        (py_bool (page_no self) = false ->
         dict_find "Photoset Page" pd' = dict_find "Photoset Page" pd) /\
        (py_bool (page_no self) = true ->
         exists pn,
           py_str (page_no self) = Ok pn /\
           dict_find "Photoset Page" pd'
           = Some (PStr (pn ++ " / "
                         ++ str_of_nat (List.length (files (post ps))))))).
Proof.
  split.
  - intros d -> F. unfold filepath_rest, se_bind, set_progress. simpl.
    unfold dict_getitem. now rewrite F.
  - intros rd' p H. apply rest_ok_inv in H.
    destruct H as (d & pd & pd' & fp1 & name & -> & F & -> & _ & _ & Hp & Hn).
    exists d, pd, pd'. repeat split; try assumption.
    + destruct (py_bool (page_no self)).
      * destruct (Hp eq_refl) as (pn & pt & _ & _ & _ & ->).
        rewrite dict_find_setitem_other by discriminate.
        apply dict_find_setitem_same.
      * destruct (Hn eq_refl) as (_ & ->). apply dict_find_setitem_same.
    + intros k K1 K2. destruct (py_bool (page_no self)).
      * destruct (Hp eq_refl) as (pn & pt & _ & _ & _ & ->).
        rewrite !dict_find_setitem_other by congruence. reflexivity.
      * destruct (Hn eq_refl) as (_ & ->).
        now rewrite dict_find_setitem_other by congruence.
    + intros T. destruct (Hn T) as (_ & ->).
      now rewrite dict_find_setitem_other by discriminate.
    + intros T. destruct (Hp T) as (pn & pt & S & _ & _ & ->).
      exists pn. split; [assumption|]. apply dict_find_setitem_same.
Qed.

Lemma progress_annotations_witness :
  filepath_rest keep as_written trip_set trip_page2 all_on (Path_new "/out")
    (PDict [("chunk_size", PInt 1024)])
  = (PDict [("chunk_size", PInt 1024)], Raise (KeyError "progress_data")) /\
  exists d pd',
    fst (filepath_rest keep as_written trip_set trip_page2 all_on (Path_new "/out")
           used_progress)
    = PDict (dict_setitem d "progress_data" (PDict pd')) /\
    dict_find "Caption" pd' = Some (PStr "Trip") /\
    dict_find "Photoset Page" pd' = Some (PStr "2 / 3").
Proof.
  split.
  - exact (proj1 (progress_annotations keep as_written trip_set trip_page2 all_on
                    (Path_new "/out") (PDict [("chunk_size", PInt 1024)]))
             [("chunk_size", PInt 1024)] eq_refl eq_refl).
  - destruct (proj2 (progress_annotations keep as_written trip_set trip_page2 all_on
                       (Path_new "/out") used_progress)
                (fst (filepath_rest keep as_written trip_set trip_page2 all_on
                        (Path_new "/out") used_progress))
                "/out/42/p2_Trip.jpg" eq_refl)
      as (d & pd & pd' & _ & _ & E & C & _ & _ & P).
    exists d, pd'. split; [exact E|]. split; [exact C|].
    destruct (P eq_refl) as (pn & Hpn & ->).
    vm_compute in Hpn. injection Hpn as <-. reflexivity.
Defined.

(** ** The constructor and the title *)

(** X16.  The title of a constructed photo set, lines 91-100: the parse
    the constructor runs binds the title resolved from the mapping, and the
    constructor then sets it to [None]; so whatever caption or title the
    response holds, the photo set returned has no title, and is otherwise
    the parsed one. *)
Theorem constructor_resets_title (b : TumblrBlog) (_post _post' : dict)
    (ps : TumblrPhotoSet) :
  TumblrPhotoSet___init__ b _post = (_post', Ok ps) ->
  title ps = PNone /\
  exists parsed_set,
    TumblrPhotoSet__parse_post (mkPhotoSet (TumblrPost_defaults b) PNone) _post
    = (_post', Ok parsed_set) /\
    title parsed_set = resolve_title _post /\
    post ps = post parsed_set.
Proof.
  intros H. apply photoset_init_inv in H. destruct H as (T & self' & P & E).
  split; [exact T|]. exists self'. split; [exact P|]. split; [|exact E].
  apply photoset_parse_inv in P. tauto.
Qed.

Lemma constructor_resets_title_witness :
  exists ps parsed_set,
    built trip_post = Some ps /\ parsed trip_post = Some parsed_set /\
    title ps = PNone /\ title parsed_set = PStr "Trip" /\
    post ps = post parsed_set.
Proof.
  destruct (constructor_resets_title example_blog trip_post
              (fst (TumblrPhotoSet___init__ example_blog trip_post))
              (mkPhotoSet (post trip_set) PNone) eq_refl)
    as (T & parsed_set & P & R & E).
  exists (mkPhotoSet (post trip_set) PNone), parsed_set.
  split; [reflexivity|]. split.
  - unfold parsed. now rewrite P.
  - split; [exact T|]. split; [|exact E]. rewrite R. reflexivity.
Defined.
